(** * cwt_analysis_synthesis: the CWT analysis/synthesis command-line tool

    A shallow embedding of [wavelet_prosody_toolkit/cwt_analysis_synthesis.py]
    ([load_f0], [run], [main]) and the properties of the pipeline it
    orchestrates.

    Conventions of the model:
    - a sample (a NumPy float) is a rational number [Q]; the rounding of
      floating-point arithmetic is not modelled;
    - a Python exception is a value of [exn]; a computation that may raise
      returns a [result];
    - everything the script does to the outside (calls into the
      [prosody_tools] modules, [np.savetxt], [pylab], [logging.error]) is
      recorded, in program order, in a log of [effect]s; a call of [pylab]
      may raise, as it does for a backend that finds no display;
    - the functions of [misc], [f0_processing] and [cwt_utils] are not part of
      this file's source: they are the fields of a [toolkit]. *)

From Stdlib Require Import List String Ascii ZArith QArith Qabs Lia Bool.
From Stdlib Require Import DecimalString DecimalNat.
Import ListNotations.

Open Scope string_scope.
Open Scope list_scope.

(** ** Python values and exceptions *)

Inductive exn : Type :=
| OSError (path : string)            (* IOError: the file cannot be opened *)
| ParseError (path : string)         (* the file is not of the kind read (ValueError / YAMLError) *)
| ValueError (what : string)
| TypeError (what : string)
| KeyError (key : string)
| AttributeError (attr : string)
| UnboundLocalError (var : string)
| IndexError
| ToolError (what : string)          (* raised inside a prosody_tools function *)
| DisplayError (what : string)       (* raised inside a pylab function *)
| ConfigurationError (what : string) (* the spec's error kind, for the functions modelled from it *)
| SystemExit (code : Z).

Inductive result (A : Type) : Type :=
| Ok (a : A)
| Raise (e : exn).
Arguments Ok {A} a.
Arguments Raise {A} e.

(** A loaded YAML document, restricted to scalars and mappings with string
    keys; a mapping is the association list of the loaded [dict]. *)
#[local] Set Warnings "-register-all".
Inductive yaml : Type :=
| YNull
| YBool (b : bool)
| YInt (z : Z)
| YFloat (q : Q)
| YStr (s : string)
| YMap (m : list (string * yaml)).

Definition pydict : Type := list (string * yaml).

Fixpoint dict_get (d : pydict) (key : string) : option yaml :=
  match d with
  | [] => None
  | (k, v) :: d' => if String.eqb k key then Some v else dict_get d' key
  end.

(** [defaultdict(lambda: False, d)[key]]. *)
Definition defaultdict_getitem (d : pydict) (key : string) : yaml :=
  match dict_get d key with
  | Some v => v
  | None => YBool false
  end.

(** [v[key]] for a loaded value [v]: only a plain [dict] can be subscripted
    by a string, and a missing key raises. *)
Definition getitem (v : yaml) (key : string) : result yaml :=
  match v with
  | YMap m => match dict_get m key with
              | Some x => Ok x
              | None => Raise (KeyError key)
              end
  | YStr _ => Raise (TypeError "string indices must be integers")
  | _ => Raise (TypeError "object is not subscriptable")
  end.

(** [defaultdict(lambda: False, y)] for the document [y] that [yaml.load]
    returned. *)
Definition to_defaultdict (y : yaml) : result pydict :=
  match y with
  | YMap m => Ok m
  | YStr "" => Ok []
  | YStr _ => Raise (ValueError "dictionary update sequence element")
  | _ => Raise (TypeError "object is not iterable")
  end.

(** ** Arrays *)

Definition vector : Type := list Q.
Definition matrix : Type := list (list Q).   (* the rows of a 2-D array *)

Definition Qsum (l : list Q) : Q := fold_left Qplus l 0%Q.

(** [np.mean]; of an empty array NumPy returns nan, the model 0. *)
Definition mean (l : vector) : Q := (Qsum l / inject_Z (Z.of_nat (List.length l)))%Q.

(** [x - c] and [x + c] for an array [x] and a scalar [c]. *)
Definition vsub_scalar (x : vector) (c : Q) : vector := map (fun v => (v - c)%Q) x.
Definition vadd_scalar (x : vector) (c : Q) : vector := map (fun v => (v + c)%Q) x.

Definition ncols (m : matrix) : nat := List.length (hd [] m).

(** The [c] columns of the rows [m]. *)
Definition transpose_n (c : nat) (m : matrix) : matrix :=
  map (fun j => map (fun row => nth j row 0%Q) m) (seq 0 c).

(** [m.T] for a 2-D array with at least one row. *)
Definition transpose (m : matrix) : matrix := transpose_n (ncols m) m.

Fixpoint chunk (fuel n : nat) (l : list Q) : matrix :=
  match fuel with
  | O => []
  | S fuel' =>
      match l with
      | [] => []
      | _ => firstn n l :: chunk fuel' n (skipn n l)
      end
  end.

(** [a.reshape(-1, n)] on the row-major data [flat] of [a]. *)
Definition reshape_cols (n : nat) (flat : list Q) : result matrix :=
  if (List.length flat mod n =? 0)%nat
  then Ok (chunk (List.length flat) n flat)
  else Raise (ValueError "cannot reshape array").

(** Python's [max] over a sequence. *)
Definition py_max (l : vector) : result Q :=
  match l with
  | [] => Raise (ValueError "max() arg is an empty sequence")
  | x :: l' => Ok (fold_left (fun m v => if Qle_bool v m then m else v) l' x)
  end.

Fixpoint enumerate_from {A : Type} (i : nat) (l : list A) : list (nat * A) :=
  match l with
  | [] => []
  | x :: l' => (i, x) :: enumerate_from (S i) l'
  end.

(** ** Strings and paths *)

Definition lower_ascii (c : ascii) : ascii :=
  let n := nat_of_ascii c in
  if ((65 <=? n) && (n <=? 90))%nat then ascii_of_nat (n + 32) else c.

(** [str.lower], on ASCII. *)
Fixpoint lower (s : string) : string :=
  match s with
  | EmptyString => EmptyString
  | String c s' => String (lower_ascii c) (lower s')
  end.

Definition endswith (s suffix : string) : bool :=
  let n := String.length s in
  let k := String.length suffix in
  (k <=? n)%nat && String.eqb (substring (n - k) k s) suffix.

Definition startswith (s pre : string) : bool := prefix pre s.

Definition is_empty (s : string) : bool :=
  match s with EmptyString => true | _ => false end.

Definition slash : ascii := "/"%char.

(** [posixpath.split]'s first step: [(p[:i], p[i:])] with
    [i = p.rfind('/') + 1]. *)
Fixpoint rsplit_slash (p : string) : string * string :=
  match p with
  | EmptyString => (EmptyString, EmptyString)
  | String c r =>
      let (h, t) := rsplit_slash r in
      if negb (is_empty h) then (String c h, t)
      else if Ascii.eqb c slash then (String c EmptyString, t)
      else (EmptyString, String c t)
  end.

(** [s.rstrip('/')] *)
Fixpoint rstrip_slash (s : string) : string :=
  match s with
  | EmptyString => EmptyString
  | String c r =>
      let r' := rstrip_slash r in
      if is_empty r' && Ascii.eqb c slash then EmptyString else String c r'
  end.

(** [os.path.basename] *)
Definition basename (p : string) : string := snd (rsplit_slash p).

(** [os.path.dirname] *)
Definition dirname (p : string) : string :=
  let head := fst (rsplit_slash p) in
  if is_empty (rstrip_slash head) then head else rstrip_slash head.

(** [os.path.join(a, b)] *)
Definition path_join (a b : string) : string :=
  if startswith b "/" then b
  else if is_empty a || endswith a "/" then (a ++ b)%string
  else (a ++ "/" ++ b)%string.

(** ["%d" % n] *)
Definition decimal (n : nat) : string := NilEmpty.string_of_uint (Nat.to_uint n).

(** ** The outside world and the effects of a run *)

(** What a file holds once parsed: the rows of numbers of a text file, or a
    YAML document. *)
Inductive file : Type :=
| FText (rows : list (list Q))
| FYaml (doc : yaml).

Inductive pylab_cmd : Type :=
| Figure
| Title (s : string)
| Plot (curve : vector)
| PlotRaw (raw : matrix)
| Show.

Record world : Type := {
  fs : string -> option file;        (* the files that can be read *)
  writable : string -> bool;         (* the paths [np.savetxt] can write *)
  module_dir : string;               (* [os.path.dirname(os.path.realpath(__file__))] *)
  pylab_raises : pylab_cmd -> option exn
                                     (* what a call of [pylab] raises, if it does *)
}.

(** The artifact a call of [np.savetxt] persists. *)
Inductive artifact : Type :=
| Interp                  (* <output>.interp : the pre-processed f0 *)
| CwtMatrix               (* <output>.cwt : the matrix held by [scales] *)
| CwtBand (i : nat)       (* <output>.cwt.<i> : one row of [scales] *)
| Reconstruction.         (* the reconstructed f0 *)

Inductive effect : Type :=
| Call_load_f0 (input_file : string)
| Call_read_wav (input_file : string)
| Call_extract_f0 (wav_form : vector) (fs : Z)
| Call_process (raw_f0 : matrix)
| Call_cwt_analysis (x : vector) (num_scales scale_distance mother_name : yaml)
                    (apply_coi : bool)
| Call_combine_scales (scales : matrix) (slices : list (nat * nat))
| Call_cwt_synthesis (scales : matrix) (mean_f0 : Q)
| Savetxt (kind : artifact) (path : string) (data : list Q)
| Pylab (cmd : pylab_cmd)
| LogError (msg : string)
| LogException (e : exn).

(** The functions of [prosody_tools] the script calls. *)
Record toolkit : Type := {
  read_wav : string -> result (Z * vector);                 (* misc.read_wav *)
  extract_f0 : vector -> Z -> result matrix;                (* f0_processing.extract_f0 *)
  process : matrix -> result vector;                        (* f0_processing.process *)
  cwt_analysis : vector -> yaml -> yaml -> yaml -> bool -> result matrix;
                                                            (* cwt_utils.cwt_analysis, first component *)
  combine_scales : matrix -> list (nat * nat) -> result matrix;
                                                            (* cwt_utils.combine_scales *)
  cwt_synthesis : matrix -> Q -> result vector              (* cwt_utils.cwt_synthesis *)
}.

(** A computation: its outcome and the effects it had, in order.  The
    effects that precede an exception are kept. *)
Definition M (A : Type) : Type := (result A * list effect)%type.

Definition ret {A : Type} (a : A) : M A := (Ok a, []).
Definition raise {A : Type} (e : exn) : M A := (Raise e, []).
Definition lift {A : Type} (r : result A) : M A := (r, []).
Definition emit (e : effect) : M unit := (Ok tt, [e]).

Definition bind {A B : Type} (m : M A) (f : A -> M B) : M B :=
  match m with
  | (Ok a, l) => let (r, l') := f a in (r, l ++ l')
  | (Raise e, l) => (Raise e, l)
  end.

Notation "x <- m ;; k" := (bind m (fun x => k))
  (at level 61, m at next level, right associativity).
Notation "m ;;; k" := (bind m (fun _ => k))
  (at level 61, right associativity).

(** The computation [m] after the effects [l]. *)
Definition prepend {A : Type} (l : list effect) (m : M A) : M A :=
  (fst m, l ++ snd m).

(** A call of an outside function: the call is logged, then it returns or
    raises. *)
Definition call {A : Type} (e : effect) (r : result A) : M A := emit e ;;; lift r.

Definition when (b : bool) (m : M unit) : M unit := if b then m else ret tt.

Fixpoint for_each {A : Type} (l : list A) (body : A -> M unit) : M unit :=
  match l with
  | [] => ret tt
  | x :: l' => body x ;;; for_each l' body
  end.

(** ["%f" % x]: [x] rounded to six decimals, ties to even. *)
Definition fmt_f (x : Q) : Q :=
  let n := (Qnum x * 1000000)%Z in
  let d := Zpos (Qden x) in
  let fl := (n / d)%Z in
  let r := (n mod d)%Z in
  let up := match (2 * r ?= d)%Z with
            | Lt => false
            | Gt => true
            | Eq => negb (Z.even fl)
            end in
  Qmake (if up then fl + 1 else fl) 1000000.

(** [np.savetxt(path, data.astype('float'), fmt="%f", delimiter="\n")]:
    one value per line, whatever the shape of [data] ([data] is given in
    row-major order). *)
Definition savetxt (w : world) (kind : artifact) (path : string) (data : list Q) : M unit :=
  if writable w path
  then emit (Savetxt kind path (map fmt_f data))
  else raise (OSError path).

(** [np.loadtxt(path)]: blank lines are skipped and every line must hold the
    same number of values. *)
Definition loadtxt (w : world) (path : string) : result matrix :=
  match fs w path with
  | None => Raise (OSError path)
  | Some (FYaml _) => Raise (ParseError path)
  | Some (FText rows) =>
      let rows' := filter (fun r => negb (List.length r =? 0)%nat) rows in
      if forallb (fun r => (List.length r =? ncols rows')%nat) rows'
      then Ok rows'
      else Raise (ValueError "Wrong number of columns")
  end.

(** [with open(path, 'r') as f: yaml.load(f)], for a PyYAML whose [load]
    takes the stream alone.  [open('')] finds no file. *)
Definition load_yaml (w : world) (path : string) : result yaml :=
  if is_empty path then Raise (OSError path)
  else
    match fs w path with
    | None => Raise (OSError path)
    | Some (FText _) => Raise (ParseError path)
    | Some (FYaml y) => Ok y
    end.

(** A call of a [pylab] function: the call is logged, then it returns or
    raises. *)
Definition pylab (w : world) (cmd : pylab_cmd) : M unit :=
  call (Pylab cmd) (match pylab_raises w cmd with
                    | None => Ok tt
                    | Some e => Raise e
                    end).

(** ** The script *)

Record args : Type := {
  configuration_file : option string;
  mode : Z;
  mean_f0 : Q;
  plot : bool;
  verbosity : nat;
  input_file : string;
  output_file : option string
}.

(** The scale ranges of line 149. *)
Definition slices : list (nat * nat) :=
  [(0, 2); (2, 4); (4, 6); (6, 8); (8, 12)]%nat.

Definition default_configuration_path (w : world) : string :=
  (module_dir w ++ "/configs/default.yaml")%string.

(** The keyword arguments of the call of [cwt_analysis] read from the
    configuration (lines 142-144), in the order Python evaluates them. *)
Record wavelet_params : Type := {
  num_scales : yaml;
  scale_distance : yaml;
  mother_name : yaml
}.

Definition wavelet_parameters (configuration : pydict) : result wavelet_params :=
  match getitem (defaultdict_getitem configuration "wavelet") "num_scales" with
  | Raise e => Raise e
  | Ok n =>
      match getitem (defaultdict_getitem configuration "wavelet") "scale_distance" with
      | Raise e => Raise e
      | Ok d =>
          match getitem (defaultdict_getitem configuration "wavelet") "mother_wavelet" with
          | Raise e => Raise e
          | Ok m => Ok {| num_scales := n; scale_distance := d; mother_name := m |}
          end
      end
  end.

Section Script.

Variable tk : toolkit.
Variable w : world.

(** [load_f0]: an input name with neither extension leaves [raw_f0]
    unbound at the [return]. *)
Definition load_f0 (input_file : string) : M matrix :=
  emit (Call_load_f0 input_file) ;;;
  if endswith (lower input_file) ".f0" then
    lift (loadtxt w input_file)
  else if endswith (lower input_file) ".wav" then
    p <- call (Call_read_wav input_file) (read_wav tk input_file) ;;
    call (Call_extract_f0 (snd p) (fst p)) (extract_f0 tk (snd p) (fst p))
  else
    raise (UnboundLocalError "raw_f0").

(** Lines 102-114 of [run].  [if args.configuration_file:] (line 107) is
    false for [None] and for the empty string.  The handler of the user
    file's [IOError] reads [args.config], an attribute the parser never
    defines. *)
Definition load_configuration (a : args) : M pydict :=
  y <- lift (load_yaml w (default_configuration_path w)) ;;
  configuration <- lift (to_defaultdict y) ;;
  match configuration_file a with
  | None => ret configuration
  | Some path =>
      if is_empty path then ret configuration
      else
        match load_yaml w path with
        | Raise (OSError _) => raise (AttributeError "config")
        | r => y' <- lift r ;; lift (to_defaultdict y')
        end
  end.

(** Lines 117-121. *)
Definition output_base (a : args) : string :=
  let output_dir := match output_file a with
                    | None => dirname (input_file a)
                    | Some d => d
                    end in
  path_join output_dir (basename (input_file a)).

(** Lines 141-162: the decomposition of [f0], the combination of the scales
    and the writing of the bands.  Returns the locals [scales] and [f0]. *)
Definition decompose_and_save (out : string) (configuration : pydict) (f0 : vector)
  : M (matrix * vector) :=
  let x := vsub_scalar f0 (mean f0) in
  p <- lift (wavelet_parameters configuration) ;;
  full <- call (Call_cwt_analysis x (num_scales p) (scale_distance p) (mother_name p) false)
               (cwt_analysis tk x (num_scales p) (scale_distance p) (mother_name p) false) ;;
  scales <- call (Call_combine_scales full slices) (combine_scales tk full slices) ;;
  savetxt w CwtMatrix (out ++ ".cwt")%string (List.concat (transpose scales)) ;;;
  for_each (enumerate_from 0 scales)
    (fun ir => savetxt w (CwtBand (fst ir + 1))
                       (out ++ ".cwt." ++ decimal (fst ir + 1))%string (snd ir)) ;;;
  ret (scales, f0).

(** Lines 127-162: the analysis pass. *)
Definition analysis (a : args) (configuration : pydict) (out : string)
  : M (matrix * vector) :=
  raw_f0 <- load_f0 (input_file a) ;;
  f0 <- call (Call_process raw_f0) (process tk raw_f0) ;;
  when (plot a)
    (pylab w (Title "F0 preprocessing and interpolation") ;;;
     pylab w (Plot f0) ;;;
     pylab w (PlotRaw raw_f0)) ;;;
  savetxt w Interp (out ++ ".interp")%string f0 ;;;
  decompose_and_save out configuration f0.

(** Lines 169-175: the synthesis step.  [scales] is [None] and [f0] is
    unbound when the analysis pass did not run. *)
Definition synthesis (a : args) (scales : option matrix) (f0 : option vector)
  : M (matrix * vector) :=
  scales' <- match scales with
             | Some s => ret s
             | None =>
                 m <- lift (loadtxt w (input_file a)) ;;
                 r <- lift (reshape_cols 5 (List.concat m)) ;;
                 ret (transpose_n 5 r)
             end ;;
  rec <- (if (mode a =? 1)%Z then
            call (Call_cwt_synthesis scales' (mean_f0 a))
                 (cwt_synthesis tk scales' (mean_f0 a))
          else
            match f0 with
            | None => raise (UnboundLocalError "f0")
            | Some f => call (Call_cwt_synthesis scales' (mean f))
                             (cwt_synthesis tk scales' (mean f))
            end) ;;
  ret (scales', rec).

(** Lines 179-189: the reconstruction is saved. *)
Definition save_reconstruction (a : args) (out : string) (rec : option vector) : M unit :=
  let target := if (mode a =? 1)%Z then output_file a
                else Some (out ++ "_rec.f0")%string in
  match rec with
  | None => raise (UnboundLocalError "rec")
  | Some r =>
      match target with
      | None => raise (ValueError "fname must be a string or file handle")
      | Some path => savetxt w Reconstruction path r
      end
  end.

(** Lines 191-203: the figure. *)
Definition plot_results (a : args) (scales : option matrix) (f0 rec : option vector)
  : M unit :=
  pylab w Figure ;;;
  pylab w (Title "CWT decomposition to 5 scales and reconstructed signal") ;;;
  r <- match rec with
       | None => raise (UnboundLocalError "rec")
       | Some r => ret r
       end ;;
  pylab w (Plot r) ;;;
  when (mode a mod 2 =? 0)%Z
    match f0 with
    | None => raise (UnboundLocalError "f0")
    | Some f => pylab w (Plot f)
    end ;;;
  s <- match scales with
       | None => raise (TypeError "object of type 'NoneType' has no len()")
       | Some s => ret s
       end ;;
  for_each (seq 0 (List.length s))
    (fun i =>
       mx <- lift (py_max r) ;;
       pylab w (Plot (vadd_scalar
                        (vadd_scalar (nth (List.length s - i - 1) s []) (mx * (3 # 2)))
                        (inject_Z (Z.of_nat i * 75))))) ;;;
  pylab w Show.

(** Lines 117-203 of [run]: what follows the loading of the configuration. *)
Definition run_configured (a : args) (configuration : pydict) : M unit :=
  let out := output_base a in
  st <- (if (mode a mod 2 =? 0)%Z then
           r <- analysis a configuration out ;;
           ret (Some (fst r), Some (snd r))
         else ret (None, None)) ;;
  st' <- (if (1 <=? mode a)%Z || plot a then
            r <- synthesis a (fst st) (snd st) ;;
            ret (Some (fst r), Some (snd r))
          else ret (fst st, None)) ;;
  when (1 <=? mode a)%Z (save_reconstruction a out (snd st')) ;;;
  when (plot a) (plot_results a (fst st') (snd st) (snd st')).

(** [run] *)
Definition run (a : args) : M unit :=
  configuration <- load_configuration a ;;
  run_configured a configuration.

End Script.

(** ** The entry point *)

(** What the command line gives: an option that is absent is [None]. *)
Record command_line : Type := {
  opt_configuration_file : option string;   (* -c *)
  opt_mode : option Z;                      (* -M *)
  opt_mean_f0 : option Q;                   (* -m *)
  opt_plot : bool;                          (* -P *)
  opt_verbosity : nat;                      (* -v, counted *)
  arg_input_file : string;
  arg_output_file : string
}.

(** [parser.parse_args()] with the defaults of lines 220-233. *)
Definition parse_args (c : command_line) : args :=
  {| configuration_file := opt_configuration_file c;
     mode := match opt_mode c with Some m => m | None => 0%Z end;
     mean_f0 := match opt_mean_f0 c with Some m => m | None => 100%Q end;
     plot := opt_plot c;
     verbosity := opt_verbosity c;
     input_file := arg_input_file c;
     output_file := Some (arg_output_file c) |}.

(** [len(LEVEL)] *)
Definition LEVEL_len : nat := 3.

(** [main]: the exit status of the program and its effects.  [sys.exit(0)]
    is caught and passed; any other exception is logged and the program
    exits with status -1.  A [KeyboardInterrupt], which lines 259-260
    re-raise, is a signal from outside the program and is not an [exn]: the
    model covers the runs that nobody interrupts. *)
Definition main (tk : toolkit) (w : world) (c : command_line) : Z * list effect :=
  let a := parse_args c in
  let log_level := if (LEVEL_len <? verbosity a)%nat then (LEVEL_len - 1)%nat
                   else verbosity a in
  let body : M unit :=
    (if (log_level <? LEVEL_len)%nat then ret tt else raise IndexError) ;;;
    run tk w a ;;;
    raise (SystemExit 0) in
  match body with
  | (Raise (SystemExit _), l) => (0%Z, l)
  | (Raise e, l) => ((-1)%Z, l ++ [LogError "ERROR, UNEXPECTED EXCEPTION"; LogException e])
  | (Ok _, l) => (0%Z, l)
  end.

(** ** What a log shows *)

Definition outcome {A : Type} (m : M A) : result A := fst m.
Definition effects {A : Type} (m : M A) : list effect := snd m.

Definition is_savetxt (e : effect) : bool :=
  match e with Savetxt _ _ _ => true | _ => false end.

(** The files a run wrote, in order. *)
Definition written (l : list effect) : list effect := filter is_savetxt l.

Definition is_transform (e : effect) : bool :=
  match e with
  | Call_cwt_analysis _ _ _ _ _ | Call_combine_scales _ _ | Call_cwt_synthesis _ _ => true
  | _ => false
  end.

(** The calls of the wavelet transforms a run made, in order. *)
Definition transforms (l : list effect) : list effect := filter is_transform l.

Definition persists (kind : artifact) (l : list effect) : Prop :=
  exists path data, In (Savetxt kind path data) l.

Definition set_plot (b : bool) (a : args) : args :=
  {| configuration_file := configuration_file a;
     mode := mode a;
     mean_f0 := mean_f0 a;
     plot := b;
     verbosity := verbosity a;
     input_file := input_file a;
     output_file := output_file a |}.

(** The command line with [-m] replaced. *)
Definition set_opt_mean_f0 (m : option Q) (c : command_line) : command_line :=
  {| opt_configuration_file := opt_configuration_file c;
     opt_mode := opt_mode c;
     opt_mean_f0 := m;
     opt_plot := opt_plot c;
     opt_verbosity := opt_verbosity c;
     arg_input_file := arg_input_file c;
     arg_output_file := arg_output_file c |}.

Definition set_mean_f0 (m : Q) (a : args) : args :=
  {| configuration_file := configuration_file a;
     mode := mode a;
     mean_f0 := m;
     plot := plot a;
     verbosity := verbosity a;
     input_file := input_file a;
     output_file := output_file a |}.

(** ** The transforms of cwt_utils, as the specification describes them *)

(** Modelled from the spec: [cwt_utils.cwt_synthesis] is not in this file's
    source.  "Given any matrix of rows of shape k x N and a MeanOffset
    scalar, produce a ReconstructedSignal of length N equal to the
    elementwise sum of all k rows plus the scalar MeanOffset added to every
    sample." *)
Definition spec_cwt_synthesis (rows : matrix) (mean_offset : Q) : vector :=
  map (fun column => (Qsum column + mean_offset)%Q) (transpose rows).

(** Modelled from the spec: [cwt_utils.combine_scales] is not in this file's
    source.  "Each output row is the elementwise sum across the scale rows
    in its range"; it "fails with ConfigurationError if any range's upper
    bound exceeds num_scales or if any range is inverted (lo >= hi)". *)
Definition spec_combine_scales (scales : matrix) (plan : list (nat * nat)) : result matrix :=
  if forallb (fun r => (fst r <? snd r)%nat && (snd r <=? List.length scales)%nat) plan
  then Ok (map (fun r => map Qsum (transpose_n (ncols scales)
                                     (firstn (snd r - fst r) (skipn (fst r) scales))))
               plan)
  else Raise (ConfigurationError "combination range").


(** Every row of [m] has [n] entries. *)
Definition rectangular (n : nat) (m : matrix) : Prop :=
  Forall (fun row => List.length row = n) m.

(** ** A small installation, for the examples *)

Definition demo_analysis (x : vector) (num_scales _ _ : yaml) (_ : bool) : result matrix :=
  match num_scales with
  | YInt n => Ok (x :: repeat (map (fun _ => 0%Q) x) (Z.to_nat n - 1))
  | _ => Raise (ToolError "num_scales")
  end.

Definition demo_tk : toolkit :=
  {| read_wav := fun _ => Raise (ToolError "read_wav");
     extract_f0 := fun _ _ => Raise (ToolError "extract_f0");
     process := fun raw => Ok (List.concat raw);
     cwt_analysis := demo_analysis;
     combine_scales := spec_combine_scales;
     cwt_synthesis := fun rows m => Ok (spec_cwt_synthesis rows m) |}.

Definition wavelet_section : yaml :=
  YMap [("num_scales", YInt 12); ("scale_distance", YFloat 1);
        ("mother_wavelet", YStr "mexican_hat")].

Definition wavelet_section_coi : yaml :=
  YMap [("num_scales", YInt 12); ("scale_distance", YFloat 1);
        ("mother_wavelet", YStr "mexican_hat"); ("apply_coi", YBool true)].

Definition demo_fs (path : string) : option file :=
  if String.eqb path "pkg/configs/default.yaml" then
    Some (FYaml (YMap [("wavelet", wavelet_section)]))
  else if String.eqb path "coi.yaml" then
    Some (FYaml (YMap [("wavelet", wavelet_section_coi); ("apply_coi", YBool true)]))
  else if String.eqb path "nowavelet.yaml" then
    Some (FYaml (YMap [("wavelets", wavelet_section)]))
  else if String.eqb path "noscales.yaml" then
    Some (FYaml (YMap [("wavelet", YMap [("scale_distance", YFloat 1);
                                          ("mother_wavelet", YStr "mexican_hat")])]))
  else if String.eqb path "eight.yaml" then
    Some (FYaml (YMap [("wavelet", YMap [("num_scales", YInt 8);
                                          ("scale_distance", YFloat 1);
                                          ("mother_wavelet", YStr "mexican_hat")])]))
  else if String.eqb path "twelve.yaml" then
    Some (FYaml (YMap [("wavelet", YMap [("num_scales", YStr "twelve");
                                          ("scale_distance", YFloat 1);
                                          ("mother_wavelet", YStr "mexican_hat")])]))
  else if String.eqb path "in/a.f0" then
    Some (FText [[90]; [120]; [90]]%Q)
  else if String.eqb path "in/a.txt" then
    Some (FText [[90]; [120]; [90]]%Q)
  else if String.eqb path "in/bands.cwt" then
    Some (FText [[1; 2; 3; 4; 5]; [10; 20; 30; 40; 50]]%Q)
  else if String.eqb path "in/one.cwt" then
    Some (FText [[1]; [2]; [3]; [4]; [5]]%Q)
  else if String.eqb path "in/two.cwt" then
    Some (FText [[1; 2]; [3; 4]]%Q)
  else None.

Definition demo_world : world :=
  {| fs := demo_fs; writable := fun _ => true; module_dir := "pkg";
     pylab_raises := fun _ => None |}.

(** A machine with no display: the first call that needs a figure raises. *)
Definition headless_world : world :=
  {| fs := demo_fs; writable := fun _ => true; module_dir := "pkg";
     pylab_raises := fun _ => Some (DisplayError "no display name") |}.

Definition demo_args (m : Z) (p : bool) (input : string) : args :=
  {| configuration_file := None; mode := m; mean_f0 := 100%Q; plot := p;
     verbosity := 0; input_file := input; output_file := Some "out" |}.

Definition demo_args_with (conf : string) (m : Z) (input : string) : args :=
  {| configuration_file := Some conf; mode := m; mean_f0 := 100%Q; plot := false;
     verbosity := 0; input_file := input; output_file := Some "out" |}.

Definition demo_command_line (m : Z) (input : string) : command_line :=
  {| opt_configuration_file := None; opt_mode := Some m; opt_mean_f0 := None;
     opt_plot := false; opt_verbosity := 0;
     arg_input_file := input; arg_output_file := "out/rec.f0" |}.

Definition demo_full : matrix :=
  vsub_scalar [90; 120; 90]%Q (mean [90; 120; 90]%Q)
  :: repeat [0; 0; 0]%Q 11.

Definition demo_bands : matrix :=
  [vsub_scalar [90; 120; 90]%Q (mean [90; 120; 90]%Q);
   [0; 0; 0]%Q; [0; 0; 0]%Q; [0; 0; 0]%Q; [0; 0; 0]%Q].

(** ** Predicates on logs used in the statements *)

(** No call of [pylab] raises. *)
Definition pylab_returns (w : world) : Prop :=
  forall cmd, pylab_raises w cmd = None.

(** [always P m]: every effect of [m] satisfies [P]. *)
Definition always (P : effect -> Prop) {A : Type} (m : M A) : Prop :=
  Forall P (effects m).

(** Two computations that return the same and write the same files. *)
Definition same_files {A : Type} (m1 m2 : M A) : Prop :=
  written (effects m1) = written (effects m2).

Definition same_result {A : Type} (m1 m2 : M A) : Prop :=
  outcome m1 = outcome m2 /\ same_files m1 m2.

(** Either the two computations return and write the same, or the first
    raises before it has written anything. *)
Definition same_or_lost {A : Type} (m1 m2 : M A) : Prop :=
  same_result m1 m2 \/ exists e l, m1 = (Raise e, l) /\ written l = [].

Definition is_reconstruction_free (e : effect) : Prop :=
  match e with Savetxt Reconstruction _ _ => False | _ => True end.

Definition is_synthesis_call (e : effect) : Prop :=
  match e with Call_cwt_synthesis _ _ => True | _ => False end.

Definition coi_disabled (e : effect) : Prop :=
  match e with
  | Call_cwt_analysis _ _ _ _ apply_coi => apply_coi = false
  | _ => True
  end.

(** What [main] makes of the outcome of [run]. *)
Definition exit_of_run (r : M unit) : Z * list effect :=
  match r with
  | (Ok _, l) => (0%Z, l)
  | (Raise (SystemExit _), l) => (0%Z, l)
  | (Raise e, l) => ((-1)%Z, l ++ [LogError "ERROR, UNEXPECTED EXCEPTION"; LogException e])
  end.

Definition synthesis_mean_is (m : Q) (e : effect) : Prop :=
  match e with
  | Call_cwt_synthesis _ m' => m' = m
  | _ => True
  end.

(** The writes of lines 158-162 for the rows [bands], numbered from [i]. *)
Definition band_files (out : string) (i : nat) (bands : matrix) : list effect :=
  map (fun ir => Savetxt (CwtBand (fst ir + 1))
                         (out ++ ".cwt." ++ decimal (fst ir + 1))%string
                         (map fmt_f (snd ir)))
      (enumerate_from i bands).

(** The files of a successful analysis pass, in the order they are written. *)
Definition analysis_files (out : string) (f0 : vector) (bands : matrix) : list effect :=
  Savetxt Interp (out ++ ".interp")%string (map fmt_f f0)
  :: Savetxt CwtMatrix (out ++ ".cwt")%string (map fmt_f (List.concat (transpose bands)))
  :: band_files out 0 bands.

Definition not_load_f0 (e : effect) : Prop :=
  match e with Call_load_f0 _ => False | _ => True end.

(** ** Further notions, for the properties of the whole script *)

Definition set_mode (m : Z) (a : args) : args :=
  {| configuration_file := configuration_file a;
     mode := m;
     mean_f0 := mean_f0 a;
     plot := plot a;
     verbosity := verbosity a;
     input_file := input_file a;
     output_file := output_file a |}.

(** The string holds no "/". *)
Fixpoint no_slash (s : string) : bool :=
  match s with
  | EmptyString => true
  | String c r => negb (Ascii.eqb c slash) && no_slash r
  end.

(** The paths of the files written, in order. *)
Fixpoint written_paths (l : list effect) : list string :=
  match l with
  | [] => []
  | Savetxt _ path _ :: l' => path :: written_paths l'
  | _ :: l' => written_paths l'
  end.

(** What a run that skips the analysis pass can do. *)
Definition synthesis_only_effect (e : effect) : Prop :=
  match e with
  | Call_cwt_synthesis _ _ | Savetxt Reconstruction _ _ | Pylab _ => True
  | _ => False
  end.

(** A text file with one value per line, as [np.savetxt] writes it. *)
Definition one_per_line (data : list Q) : file := FText (map (fun v => [v]) data).

(** The tools for audio input are called by [load_f0] alone, on an input
    named ".wav" and not ".f0", and [extract_f0] on what [read_wav] gave. *)
Definition wav_tools_in_order (tk : toolkit) (input : string) (e : effect) : Prop :=
  match e with
  | Call_read_wav p =>
      endswith (lower input) ".f0" = false /\ endswith (lower input) ".wav" = true
      /\ p = input
  | Call_extract_f0 wav_form rate => read_wav tk input = Ok (rate, wav_form)
  | _ => True
  end.

(** The demo world with every other file holding [data], one value per line. *)
Definition demo_world_with (data : list Q) : world :=
  {| fs := fun path => if String.eqb path "pkg/configs/default.yaml"
                       then demo_fs path
                       else Some (one_per_line data);
     writable := fun _ => true;
     module_dir := "pkg";
     pylab_raises := fun _ => None |}.

(** The effect is not a write to [target]. *)
Definition not_written_to (target : string) (e : effect) : Prop :=
  match e with
  | Savetxt _ path _ => path <> target
  | _ => True
  end.

(** * Properties *)

(** ** The model on small inputs *)

Example basename_ex : basename "data/utt/a.f0" = "a.f0".
Proof. reflexivity. Qed.

Example dirname_ex : dirname "data//utt//a.f0" = "data//utt".
Proof. reflexivity. Qed.

Example path_join_ex : path_join "out" "a.f0" = "out/a.f0".
Proof. reflexivity. Qed.

Example endswith_ex : endswith (lower "A.F0") ".f0" = true.
Proof. reflexivity. Qed.

Example fmt_f_ex : fmt_f (1 # 3) = Qmake 333333 1000000.
Proof. reflexivity. Qed.

Example reshape_ex :
  reshape_cols 5 [1; 2; 3; 4; 5; 6; 7; 8; 9; 10]%Q
  = Ok [[1; 2; 3; 4; 5]; [6; 7; 8; 9; 10]]%Q.
Proof. reflexivity. Qed.

Example both_mode_ex :
  written (effects (run demo_tk demo_world (demo_args 2 false "in/a.f0")))
  = analysis_files "out/a.f0" [90; 120; 90]%Q demo_bands
    ++ [Savetxt Reconstruction "out/a.f0_rec.f0" (map fmt_f [90; 120; 90]%Q)].
Proof. reflexivity. Qed.

Example missing_user_configuration_ex :
  run demo_tk demo_world (demo_args_with "missing.yaml" 0 "in/a.f0")
  = (Raise (AttributeError "config"), []).
Proof. reflexivity. Qed.

Example verbosity_3_ex :
  main demo_tk demo_world
       {| opt_configuration_file := None; opt_mode := None; opt_mean_f0 := None;
          opt_plot := false; opt_verbosity := 3;
          arg_input_file := "in/a.f0"; arg_output_file := "out" |}
  = ((-1)%Z, [LogError "ERROR, UNEXPECTED EXCEPTION"; LogException IndexError]).
Proof. reflexivity. Qed.

(** ** Reasoning about computations *)

Section Computations.

Context {A B : Type}.

Lemma outcome_bind (m : M A) (f : A -> M B) :
  outcome (bind m f) =
  match outcome m with Ok a => outcome (f a) | Raise e => Raise e end.
Proof.
  destruct m as [[a | e] l]; simpl; [destruct (f a) |]; reflexivity.
Qed.

Lemma effects_bind (m : M A) (f : A -> M B) :
  effects (bind m f) =
  effects m ++ match outcome m with Ok a => effects (f a) | Raise _ => [] end.
Proof.
  destruct m as [[a | e] l]; simpl; [destruct (f a) | rewrite app_nil_r]; reflexivity.
Qed.

Lemma bind_Ok_inv (m : M A) (f : A -> M B) (b : B) (l : list effect) :
  bind m f = (Ok b, l) ->
  exists a l1 l2, m = (Ok a, l1) /\ f a = (Ok b, l2) /\ l = l1 ++ l2.
Proof.
  destruct m as [[a | e] l1]; simpl; [| discriminate].
  destruct (f a) as [r l2] eqn:E; intros H; inversion H; subst.
  exists a, l1, l2; auto.
Qed.

Lemma bind_Ok (m : M A) (f : A -> M B) (a : A) (l : list effect) :
  m = (Ok a, l) -> bind m f = (fst (f a), l ++ snd (f a)).
Proof. intros ->; simpl; destruct (f a); reflexivity. Qed.

Lemma bind_Raise (m : M A) (f : A -> M B) (e : exn) (l : list effect) :
  m = (Raise e, l) -> bind m f = (Raise e, l).
Proof. intros ->; reflexivity. Qed.

Lemma bind_pair (a : A) (l : list effect) (f : A -> M B) :
  bind (Ok a, l) f = prepend l (f a).
Proof. simpl; destruct (f a); reflexivity. Qed.

Lemma bind_ret_l (a : A) (f : A -> M B) : bind (ret a) f = f a.
Proof. unfold ret; simpl; destruct (f a); reflexivity. Qed.

Lemma bind_prepend (l : list effect) (m : M A) (f : A -> M B) :
  bind (prepend l m) f = prepend l (bind m f).
Proof.
  destruct m as [[a | e] l1]; unfold prepend; simpl; [| reflexivity].
  destruct (f a); simpl. rewrite app_assoc. reflexivity.
Qed.

Lemma prepend_prepend (l1 l2 : list effect) (m : M A) :
  prepend l1 (prepend l2 m) = prepend (l1 ++ l2) m.
Proof. unfold prepend; simpl. rewrite app_assoc. reflexivity. Qed.

Lemma prepend_nil (m : M A) : prepend [] m = m.
Proof. destruct m; reflexivity. Qed.

Lemma call_Ok (e : effect) (a : A) : call e (Ok a) = (Ok a, [e]).
Proof. reflexivity. Qed.

Lemma call_Raise (e : effect) (x : exn) : @call A e (Raise x) = (Raise x, [e]).
Proof. reflexivity. Qed.

Lemma in_effects_bind_l (m : M A) (f : A -> M B) (e : effect) :
  In e (effects m) -> In e (effects (bind m f)).
Proof. intros H; rewrite effects_bind; apply in_or_app; left; exact H. Qed.

Lemma in_effects_bind_r (m : M A) (f : A -> M B) (e : effect) (a : A) (l : list effect) :
  m = (Ok a, l) -> In e (effects (f a)) -> In e (effects (bind m f)).
Proof. intros -> H; rewrite effects_bind; apply in_or_app; right; exact H. Qed.

End Computations.

Section Always.

Variable P : effect -> Prop.

Lemma always_bind {A B : Type} (m : M A) (f : A -> M B) :
  always P m -> (forall a, always P (f a)) -> always P (bind m f).
Proof.
  unfold always; intros Hm Hf; rewrite effects_bind.
  apply Forall_app; split; [exact Hm |].
  destruct (outcome m); [apply Hf | constructor].
Qed.

Lemma always_ret {A : Type} (a : A) : always P (ret a).
Proof. constructor. Qed.

Lemma always_raise {A : Type} (e : exn) : always P (@raise A e).
Proof. constructor. Qed.

Lemma always_lift {A : Type} (r : result A) : always P (lift r).
Proof. constructor. Qed.

Lemma always_emit (e : effect) : P e -> always P (emit e).
Proof. intros H; constructor; [exact H | constructor]. Qed.

Lemma always_call {A : Type} (e : effect) (r : result A) : P e -> always P (call e r).
Proof.
  intros H; unfold call; apply always_bind; [apply always_emit, H | intros; apply always_lift].
Qed.

Lemma always_pylab (w : world) (cmd : pylab_cmd) : P (Pylab cmd) -> always P (pylab w cmd).
Proof. intros H; unfold pylab; apply always_call, H. Qed.

Lemma always_when (b : bool) (m : M unit) : always P m -> always P (when b m).
Proof. destruct b; simpl; [auto | intros; apply always_ret]. Qed.

Lemma always_for_each {A : Type} (l : list A) (body : A -> M unit) :
  (forall x, always P (body x)) -> always P (for_each l body).
Proof.
  intros H; induction l as [| x l IH]; simpl; [apply always_ret |].
  apply always_bind; auto.
Qed.

Lemma always_savetxt (w : world) (k : artifact) (path : string) (data : list Q) :
  P (Savetxt k path (map fmt_f data)) -> always P (savetxt w k path data).
Proof.
  intros H; unfold savetxt; destruct (writable w path);
    [apply always_emit, H | apply always_raise].
Qed.

End Always.

(** Splits an [always] goal along the structure of the computation; what is
    left is [P] at each effect the computation can have. *)
Ltac always_step :=
  first
    [ apply always_ret | apply always_raise | apply always_lift
    | apply always_bind; [| intros ]
    | apply always_pylab
    | apply always_emit | apply always_call | apply always_savetxt
    | apply always_when | apply always_for_each; intros
    | match goal with
      | |- always _ (if ?b then _ else _) => destruct b
      | |- always _ (match ?x with _ => _ end) => destruct x
      end ].

Ltac always_tac := repeat always_step.

(** Runs the steps of a computation whose outcomes are known. *)
Ltac exec :=
  cbn [bind ret raise lift call emit when fst snd app orb andb negb
       Z.eqb Z.leb Z.compare Pos.compare Pos.compare_cont Pos.eqb outcome effects].

Lemma always_In (P : effect -> Prop) {A : Type} (m : M A) (e : effect) :
  always P m -> In e (effects m) -> P e.
Proof. unfold always; rewrite Forall_forall; auto. Qed.

Lemma written_app (l1 l2 : list effect) : written (l1 ++ l2) = written l1 ++ written l2.
Proof. apply filter_app. Qed.

Lemma transforms_app (l1 l2 : list effect) :
  transforms (l1 ++ l2) = transforms l1 ++ transforms l2.
Proof. apply filter_app. Qed.

Lemma always_filter_nil (p : effect -> bool) {A : Type} (m : M A) :
  always (fun e => p e = false) m -> filter p (effects m) = [].
Proof.
  unfold always; induction 1 as [| e l He _ IH]; simpl; [| rewrite He]; auto.
Qed.

(** The parts of [run] that write no file. *)
Section Silent.

Variable tk : toolkit.
Variable w : world.

Lemma load_configuration_effects (a : args) : effects (load_configuration w a) = [].
Proof.
  unfold load_configuration.
  destruct (load_yaml w (default_configuration_path w)) as [y | e]; [| reflexivity].
  simpl. destruct (to_defaultdict y) as [c | e]; [| reflexivity].
  simpl. destruct (configuration_file a) as [p |]; [| reflexivity].
  destruct (is_empty p); [reflexivity |].
  destruct (load_yaml w p) as [y' | e'];
    [simpl; destruct (to_defaultdict y'); reflexivity | destruct e'; reflexivity].
Qed.

Lemma synthesis_silent (a : args) (s : option matrix) (f : option vector) :
  always (fun e => is_savetxt e = false) (synthesis tk w a s f).
Proof. unfold synthesis; always_tac; reflexivity. Qed.

Lemma plot_results_silent (a : args) (s : option matrix) (f r : option vector) :
  always (fun e => is_savetxt e = false) (plot_results w a s f r).
Proof. unfold plot_results; always_tac; reflexivity. Qed.

End Silent.

(** ** The plot flag and the files written (C10) *)

Lemma same_result_refl {A : Type} (m : M A) : same_result m m.
Proof. split; reflexivity. Qed.

Lemma same_files_bind {A B : Type} (m1 m2 : M A) (f1 f2 : A -> M B) :
  same_result m1 m2 -> (forall a, same_files (f1 a) (f2 a)) ->
  same_files (bind m1 f1) (bind m2 f2).
Proof.
  unfold same_result, same_files; intros [Ho Hw] Hf.
  rewrite !effects_bind, !written_app, Hw, <- Ho.
  f_equal. destruct (outcome m1); [apply Hf | reflexivity].
Qed.

Lemma same_result_bind {A B : Type} (m1 m2 : M A) (f1 f2 : A -> M B) :
  same_result m1 m2 -> (forall a, same_result (f1 a) (f2 a)) ->
  same_result (bind m1 f1) (bind m2 f2).
Proof.
  intros H Hf; split.
  - rewrite !outcome_bind. destruct H as [<- _].
    destruct (outcome m1); [apply Hf | reflexivity].
  - apply same_files_bind; [exact H | intros; apply Hf].
Qed.

Lemma silent_same_files {A : Type} (m1 m2 : M A) :
  always (fun e => is_savetxt e = false) m1 ->
  always (fun e => is_savetxt e = false) m2 ->
  same_files m1 m2.
Proof.
  intros H1 H2; unfold same_files, written.
  rewrite (always_filter_nil _ _ H1), (always_filter_nil _ _ H2); reflexivity.
Qed.

Lemma same_result_prepend_silent {A : Type} (l : list effect) (m : M A) :
  written l = [] -> same_result (prepend l m) m.
Proof.
  intros H; split; [reflexivity |].
  unfold same_files, prepend, effects; cbn [snd]. rewrite written_app, H. reflexivity.
Qed.

Lemma same_or_lost_bind {A B : Type} (m : M A) (f1 f2 : A -> M B) :
  written (effects m) = [] ->
  (forall a l, m = (Ok a, l) -> same_or_lost (f1 a) (f2 a)) ->
  same_or_lost (bind m f1) (bind m f2).
Proof.
  destruct m as [[a | e] l]; cbn [effects snd]; intros Hw H.
  - destruct (H a l eq_refl) as [[Ho Hf] | (e & l' & H1 & Hw')].
    + left. split.
      * rewrite !outcome_bind. exact Ho.
      * unfold same_files. rewrite !effects_bind, !written_app.
        cbn [outcome fst]. f_equal. exact Hf.
    + right. exists e, (l ++ l'). split.
      * rewrite bind_pair, H1. reflexivity.
      * rewrite written_app, Hw, Hw'. reflexivity.
  - left. split; reflexivity.
Qed.

Lemma analysis_plot_irrelevant (tk : toolkit) (w : world) (a : args)
      (configuration : pydict) (out : string) :
  pylab_returns w ->
  same_result (analysis tk w (set_plot true a) configuration out)
              (analysis tk w (set_plot false a) configuration out).
Proof.
  intros Hp. unfold analysis; cbn [plot input_file set_plot].
  apply same_result_bind; [apply same_result_refl | intros raw].
  apply same_result_bind; [apply same_result_refl | intros f0].
  apply same_result_bind; [| intros _; apply same_result_refl].
  unfold when, pylab. rewrite !Hp. split; reflexivity.
Qed.

(** The plotting calls of lines 133-135 precede the first write: if one of
    them raises, nothing has been written. *)
Lemma analysis_plot_cases (tk : toolkit) (w : world) (a : args)
      (configuration : pydict) (out : string) :
  same_or_lost (analysis tk w (set_plot true a) configuration out)
               (analysis tk w (set_plot false a) configuration out).
Proof.
  unfold analysis; cbn [plot input_file set_plot when].
  apply same_or_lost_bind.
  { apply (always_filter_nil is_savetxt). unfold load_f0. always_tac; reflexivity. }
  intros raw l0 _. apply same_or_lost_bind.
  { apply (always_filter_nil is_savetxt). always_tac; reflexivity. }
  intros f0 l1 _.
  assert (Hsil : written (effects (pylab w (Title "F0 preprocessing and interpolation") ;;;
                                   pylab w (Plot f0) ;;; pylab w (PlotRaw raw))) = []).
  { apply (always_filter_nil is_savetxt). always_tac; reflexivity. }
  destruct (pylab w (Title "F0 preprocessing and interpolation") ;;;
            pylab w (Plot f0) ;;; pylab w (PlotRaw raw)) as [[[] | e] l3].
  - left. rewrite bind_pair, bind_ret_l. apply same_result_prepend_silent, Hsil.
  - right. exists e, l3. split; [reflexivity | exact Hsil].
Qed.

Lemma run_configured_plot_same_files (tk : toolkit) (w : world) (a : args)
      (configuration : pydict) :
  ((mode a mod 2 =? 0)%Z = true ->
   same_result (analysis tk w (set_plot true a) configuration (output_base a))
               (analysis tk w (set_plot false a) configuration (output_base a))) ->
  same_files (run_configured tk w (set_plot true a) configuration)
             (run_configured tk w (set_plot false a) configuration).
Proof.
  intros Han. unfold run_configured.
  change (output_base (set_plot true a)) with (output_base a).
  change (output_base (set_plot false a)) with (output_base a).
  apply same_files_bind.
  { cbn [mode set_plot]. destruct (mode a mod 2 =? 0)%Z.
    - apply same_result_bind; [apply Han; reflexivity | intros r].
      apply same_result_refl.
    - apply same_result_refl. }
  intros st. cbn [mode plot set_plot].
  destruct (1 <=? mode a)%Z; cbn [orb when].
  + change (synthesis tk w (set_plot true a)) with (synthesis tk w a).
    change (synthesis tk w (set_plot false a)) with (synthesis tk w a).
    change (save_reconstruction w (set_plot true a)) with (save_reconstruction w a).
    change (save_reconstruction w (set_plot false a)) with (save_reconstruction w a).
    apply same_files_bind; [apply same_result_refl | intros st'].
    apply same_files_bind; [apply same_result_refl | intros _].
    apply silent_same_files; [apply plot_results_silent | apply always_ret].
  + apply silent_same_files.
    * apply always_bind; [| intros; apply always_bind;
                              [apply always_ret | intros; apply plot_results_silent]].
      apply always_bind; [apply synthesis_silent | intros; apply always_ret].
    * always_tac.
Qed.

Lemma run_plot_same_files (tk : toolkit) (w : world) (a : args) :
  (forall configuration,
     (mode a mod 2 =? 0)%Z = true ->
     same_result (analysis tk w (set_plot true a) configuration (output_base a))
                 (analysis tk w (set_plot false a) configuration (output_base a))) ->
  written (effects (run tk w (set_plot true a))) =
  written (effects (run tk w (set_plot false a))).
Proof.
  intros Han. unfold run.
  change (load_configuration w (set_plot true a)) with (load_configuration w a).
  change (load_configuration w (set_plot false a)) with (load_configuration w a).
  apply same_files_bind; [apply same_result_refl | intros configuration].
  apply run_configured_plot_same_files, Han.
Qed.

Lemma run_plot_cases (tk : toolkit) (w : world) (a : args) :
  written (effects (run tk w (set_plot true a))) =
  written (effects (run tk w (set_plot false a)))
  \/ written (effects (run tk w (set_plot true a))) = [].
Proof.
  destruct (mode a mod 2 =? 0)%Z eqn:Hm.
  - unfold run.
    change (load_configuration w (set_plot true a)) with (load_configuration w a).
    change (load_configuration w (set_plot false a)) with (load_configuration w a).
    pose proof (load_configuration_effects w a) as Hl.
    destruct (load_configuration w a) as [[configuration | e] l]; cbn [effects snd] in Hl;
      subst l; [| left; reflexivity].
    rewrite !bind_pair, !prepend_nil.
    destruct (analysis_plot_cases tk w a configuration (output_base a))
      as [H | (e & l & H & Hw)].
    + left. apply run_configured_plot_same_files. intros _; exact H.
    + right. unfold run_configured. cbn [mode set_plot]. rewrite Hm.
      change (output_base (set_plot true a)) with (output_base a).
      rewrite H. exact Hw.
  - left. apply run_plot_same_files. intros c H. rewrite Hm in H. discriminate H.
Qed.

(** C10, as the code has it.  When the calls of [pylab] return, the plot
    flag changes no persisted artifact, for every mode: the files written,
    their order and their contents are the same with and without plotting.
    The plotting calls of lines 133-135 come before the first write, so in
    general the run with the flag writes either the same files as the run
    without it or, when one of these calls raises, no file at all.  In
    analysis-only mode (mode 0) the plot flag makes the run call the
    synthesis on the bands and the signal's mean, a call the run without the
    flag does not make, and the result is never written. *)
Theorem plot_flag_changes_no_file (tk : toolkit) (w : world) (a : args) :
  (pylab_returns w ->
   written (effects (run tk w (set_plot true a))) =
   written (effects (run tk w (set_plot false a))))
  /\ (written (effects (run tk w (set_plot true a))) =
      written (effects (run tk w (set_plot false a)))
      \/ written (effects (run tk w (set_plot true a))) = [])
  /\ (mode a = 0%Z ->
      ~ persists Reconstruction (effects (run tk w (set_plot true a)))
      /\ (forall e, In e (effects (run tk w (set_plot false a))) -> ~ is_synthesis_call e)
      /\ (forall configuration bands f0 l,
            load_configuration w a = (Ok configuration, []) ->
            analysis tk w (set_plot true a) configuration (output_base a)
              = (Ok (bands, f0), l) ->
            In (Call_cwt_synthesis bands (mean f0))
               (effects (run tk w (set_plot true a))))).
Proof.
  split; [| split].
  - intros Hp. apply run_plot_same_files. intros c _.
    apply analysis_plot_irrelevant, Hp.
  - apply run_plot_cases.
  - intros Hmode. split; [| split].
    + intros (path & data & Hin).
      apply (always_In is_reconstruction_free) in Hin; [exact Hin |].
      unfold run, run_configured. cbn [mode plot set_plot]. rewrite Hmode.
      cbn [Z.modulo Z.eqb Z.leb orb when].
      unfold analysis, decompose_and_save, synthesis, plot_results, load_f0,
        load_configuration.
      always_tac; exact I.
    + intros e Hin Hsyn.
      apply (always_In (fun e => ~ is_synthesis_call e)) in Hin; [exact (Hin Hsyn) |].
      unfold run, run_configured. cbn [mode plot set_plot]. rewrite Hmode.
      cbn [Z.modulo Z.eqb Z.leb orb when].
      unfold analysis, decompose_and_save, load_f0, load_configuration.
      always_tac; intros H; exact H.
    + intros configuration bands f0 l Hc Ha.
      unfold run, run_configured.
      change (load_configuration w (set_plot true a)) with (load_configuration w a).
      change (output_base (set_plot true a)) with (output_base a).
      apply in_effects_bind_r with configuration []; [exact Hc |].
      cbn [mode plot set_plot]. rewrite Hmode.
      cbn [Z.modulo Z.eqb Z.leb orb when].
      apply in_effects_bind_r with (Some bands, Some f0) (l ++ []);
        [rewrite (bind_Ok _ _ _ _ Ha); reflexivity |].
      do 2 apply in_effects_bind_l.
      unfold synthesis. cbn [mode set_plot fst snd]. rewrite Hmode. cbn [Z.eqb].
      apply in_effects_bind_r with bands []; [reflexivity |].
      do 2 apply in_effects_bind_l. left; reflexivity.
Qed.

(** ** Cone-of-influence masking (C6) *)

(** C6, as the code has it.  The forward transform is always called with
    [apply_coi] disabled, for every toolkit, world and arguments; and the
    configuration is read through the three wavelet fields only, so no
    [apply_coi] entry of the configuration can reach the call. *)
Theorem apply_coi_fixed_to_disabled (tk : toolkit) (w : world) (a : args) :
  (forall x n d m apply_coi,
      In (Call_cwt_analysis x n d m apply_coi) (effects (run tk w a)) ->
      apply_coi = false)
  /\ (forall c1 c2,
        wavelet_parameters c1 = wavelet_parameters c2 ->
        run_configured tk w a c1 = run_configured tk w a c2).
Proof.
  split.
  - intros x n d m b Hin.
    apply (always_In coi_disabled) in Hin; [exact Hin |].
    unfold run, run_configured, analysis, decompose_and_save, synthesis,
      save_reconstruction, plot_results, load_f0, load_configuration.
    always_tac; solve [exact I | reflexivity].
  - intros c1 c2 H. unfold run_configured, analysis, decompose_and_save.
    rewrite H. reflexivity.
Qed.

Lemma apply_coi_fixed_to_disabled_witness :
  In (Call_cwt_analysis (vsub_scalar [90; 120; 90] (mean [90; 120; 90]))%Q
        (YInt 12) (YFloat 1) (YStr "mexican_hat") false)
     (effects (run demo_tk demo_world (demo_args_with "coi.yaml" 0 "in/a.f0")))
  /\ false = false.
Proof.
  assert (H : In (Call_cwt_analysis (vsub_scalar [90; 120; 90] (mean [90; 120; 90]))%Q
                    (YInt 12) (YFloat 1) (YStr "mexican_hat") false)
                 (effects (run demo_tk demo_world (demo_args_with "coi.yaml" 0 "in/a.f0")))).
  { vm_compute. right; right; right; left; reflexivity. }
  split; [exact H |].
  exact (proj1 (apply_coi_fixed_to_disabled demo_tk demo_world
                  (demo_args_with "coi.yaml" 0 "in/a.f0")) _ _ _ _ _ H).
Defined.

(** C6, as the claim states it, fails: a configuration that sets
    [apply_coi] to true, at the top level and in the wavelet section, still
    has the forward transform called with [apply_coi] disabled. *)
Lemma apply_coi_override_not_passed :
  (exists c,
      load_configuration demo_world (demo_args_with "coi.yaml" 0 "in/a.f0") = (Ok c, [])
      /\ dict_get c "apply_coi" = Some (YBool true)
      /\ getitem (defaultdict_getitem c "wavelet") "apply_coi" = Ok (YBool true))
  /\ In (Call_cwt_analysis (vsub_scalar [90; 120; 90] (mean [90; 120; 90]))%Q
          (YInt 12) (YFloat 1) (YStr "mexican_hat") false)
        (effects (run demo_tk demo_world (demo_args_with "coi.yaml" 0 "in/a.f0")))
  /\ ~ In (Call_cwt_analysis (vsub_scalar [90; 120; 90] (mean [90; 120; 90]))%Q
            (YInt 12) (YFloat 1) (YStr "mexican_hat") true)
          (effects (run demo_tk demo_world (demo_args_with "coi.yaml" 0 "in/a.f0"))).
Proof.
  split; [| split].
  - eexists; split; [vm_compute; reflexivity | split; reflexivity].
  - vm_compute. right; right; right; left; reflexivity.
  - intros H. vm_compute in H.
    repeat (destruct H as [H | H]; [discriminate H |]). exact H.
Qed.

(** ** The entry point and its defaults (C7, C2) *)

Lemma log_level_in_range (v : nat) :
  v <> 3%nat ->
  ((if (LEVEL_len <? v)%nat then (LEVEL_len - 1)%nat else v) <? LEVEL_len)%nat = true.
Proof.
  unfold LEVEL_len; intros H.
  destruct (3 <? v)%nat eqn:E; [reflexivity |].
  apply Nat.ltb_ge in E. apply Nat.ltb_lt. lia.
Qed.

Lemma main_of_run (tk : toolkit) (w : world) (c : command_line) :
  verbosity (parse_args c) <> 3%nat ->
  main tk w c = exit_of_run (run tk w (parse_args c)).
Proof.
  intros H; unfold main. rewrite (log_level_in_range _ H).
  destruct (run tk w (parse_args c)) as [[[] | e] l]; simpl.
  - rewrite app_nil_r; reflexivity.
  - destruct e; reflexivity.
Qed.

Lemma main_effects (tk : toolkit) (w : world) (c : command_line) (e : effect) :
  In e (snd (main tk w c)) ->
  In e (effects (run tk w (parse_args c)))
  \/ (exists s, e = LogError s) \/ (exists x, e = LogException x).
Proof.
  unfold main.
  destruct ((if (LEVEL_len <? verbosity (parse_args c))%nat
             then (LEVEL_len - 1)%nat else verbosity (parse_args c)) <? LEVEL_len)%nat.
  - destruct (run tk w (parse_args c)) as [[[] | x] l]; simpl.
    + rewrite app_nil_r; auto.
    + destruct x; simpl; auto; intros H; apply in_app_or in H;
        (destruct H as [H | [H | [H | []]]]; [auto | right; left | right; right]);
        eexists; symmetry; exact H.
  - simpl. intros [H | [H | []]]; [right; left | right; right]; eexists; symmetry; exact H.
Qed.

(** C7: the code at an input name with neither extension.  For every
    analysis-mode run whose input name ends in neither ".f0" nor ".wav",
    [load_f0] falls through both branches and its [return] raises
    UnboundLocalError on [raw_f0]: the run stops before any transform and
    before any file is written, and [main] reports it as an unexpected
    exception and exits with status -1. *)
Theorem unsupported_extension_unbound_local
        (tk : toolkit) (w : world) (c : command_line) (configuration : pydict) :
  verbosity (parse_args c) <> 3%nat ->
  load_configuration w (parse_args c) = (Ok configuration, []) ->
  (mode (parse_args c) mod 2 = 0)%Z ->
  endswith (lower (arg_input_file c)) ".f0" = false ->
  endswith (lower (arg_input_file c)) ".wav" = false ->
  run tk w (parse_args c)
    = (Raise (UnboundLocalError "raw_f0"), [Call_load_f0 (arg_input_file c)])
  /\ main tk w c
     = ((-1)%Z, [Call_load_f0 (arg_input_file c);
                 LogError "ERROR, UNEXPECTED EXCEPTION";
                 LogException (UnboundLocalError "raw_f0")]).
Proof.
  intros Hv Hc Hm H1 H2.
  assert (Hrun : run tk w (parse_args c)
                 = (Raise (UnboundLocalError "raw_f0"), [Call_load_f0 (arg_input_file c)])).
  { unfold run. rewrite Hc. unfold run_configured.
    apply Z.eqb_eq in Hm. rewrite Hm.
    unfold analysis, load_f0. cbn [input_file parse_args].
    rewrite H1, H2. reflexivity. }
  split; [exact Hrun |].
  rewrite (main_of_run _ _ _ Hv), Hrun. reflexivity.
Qed.

Lemma unsupported_extension_unbound_local_witness :
  main demo_tk demo_world (demo_command_line 0 "in/a.txt")
  = ((-1)%Z, [Call_load_f0 "in/a.txt";
              LogError "ERROR, UNEXPECTED EXCEPTION";
              LogException (UnboundLocalError "raw_f0")]).
Proof.
  refine (proj2 (unsupported_extension_unbound_local demo_tk demo_world
                   (demo_command_line 0 "in/a.txt")
                   [("wavelet", wavelet_section)] _ _ _ _ _)).
  - simpl; lia.
  - reflexivity.
  - reflexivity.
  - reflexivity.
  - reflexivity.
Defined.

Lemma run_mode_1_mean (tk : toolkit) (w : world) (a : args) :
  mode a = 1%Z ->
  always (synthesis_mean_is (mean_f0 a)) (run tk w a).
Proof.
  intros Hm; unfold run, run_configured, synthesis. rewrite Hm.
  simpl (1 mod 2 =? 0)%Z. simpl (1 <=? 1)%Z. simpl (1 =? 1)%Z. cbn iota.
  unfold save_reconstruction, plot_results, load_configuration.
  always_tac; solve [exact I | reflexivity].
Qed.

Lemma written_exit_of_run (r : M unit) :
  written (snd (exit_of_run r)) = written (effects r).
Proof.
  destruct r as [[[] | e] l]; cbn [exit_of_run effects snd]; [reflexivity |].
  destruct e; cbn [snd]; try reflexivity;
    rewrite written_app; cbn; apply app_nil_r.
Qed.

(** C2, as the code has it.  When the caller of a synthesis-only run gives
    no mean, the parser supplies 100 and nothing is raised for the missing
    mean: the program does exactly what it does when [-m 100] is given, and
    every call of the synthesis the run makes has mean 100.  When moreover
    the program is not given three [-v], the configuration and the input
    load, the input regroups by five, the synthesis returns and the output
    can be written, the reconstruction is the one file written; and without
    the plot flag the program then exits with status 0 (with it, the exit
    status is that of the plotting). *)
Theorem missing_mean_defaults_to_100 (tk : toolkit) (w : world) (c : command_line) :
  opt_mode c = Some 1%Z ->
  opt_mean_f0 c = None ->
  mean_f0 (parse_args c) = 100%Q
  /\ main tk w c = main tk w (set_opt_mean_f0 (Some 100%Q) c)
  /\ (forall rows m, In (Call_cwt_synthesis rows m) (snd (main tk w c)) -> m = 100%Q)
  /\ (forall configuration m r rec,
         verbosity (parse_args c) <> 3%nat ->
         load_configuration w (parse_args c) = (Ok configuration, []) ->
         loadtxt w (arg_input_file c) = Ok m ->
         reshape_cols 5 (List.concat m) = Ok r ->
         cwt_synthesis tk (transpose_n 5 r) 100%Q = Ok rec ->
         writable w (arg_output_file c) = true ->
         In (Call_cwt_synthesis (transpose_n 5 r) 100%Q) (snd (main tk w c))
         /\ written (snd (main tk w c))
            = [Savetxt Reconstruction (arg_output_file c) (map fmt_f rec)]
         /\ (opt_plot c = false ->
             main tk w c
             = (0%Z, [Call_cwt_synthesis (transpose_n 5 r) 100%Q;
                      Savetxt Reconstruction (arg_output_file c) (map fmt_f rec)]))).
Proof.
  intros Hmode Hmean.
  assert (Hm : mode (parse_args c) = 1%Z) by (unfold parse_args; simpl; rewrite Hmode; reflexivity).
  assert (Hf : mean_f0 (parse_args c) = 100%Q)
    by (unfold parse_args; simpl; rewrite Hmean; reflexivity).
  split; [exact Hf |]. split; [| split].
  - unfold main, parse_args, set_opt_mean_f0.
    cbn [opt_configuration_file opt_mode opt_mean_f0 opt_plot opt_verbosity
         arg_input_file arg_output_file].
    rewrite Hmean. reflexivity.
  - intros rows m Hin.
    apply main_effects in Hin.
    destruct Hin as [Hin | [[s Hs] | [x Hx]]]; [| discriminate Hs | discriminate Hx].
    apply (always_In _ _ _ (run_mode_1_mean tk w _ Hm)) in Hin.
    simpl in Hin. rewrite Hin. exact Hf.
  - intros configuration m r rec Hv Hc Hl Hr Hs Hw.
    assert (Hrun : run tk w (parse_args c)
                   = prepend [Call_cwt_synthesis (transpose_n 5 r) 100%Q;
                              Savetxt Reconstruction (arg_output_file c) (map fmt_f rec)]
                       (when (opt_plot c)
                          (plot_results w (parse_args c)
                             (Some (transpose_n 5 r)) None (Some rec)))).
    { unfold run. rewrite Hc, bind_pair, prepend_nil. unfold run_configured. rewrite Hm.
      change (1 mod 2 =? 0)%Z with false. change (1 <=? 1)%Z with true.
      cbn [orb when]. rewrite bind_ret_l. cbn [fst snd].
      unfold synthesis. rewrite Hm, Hf. change (1 =? 1)%Z with true. cbn iota.
      cbn [input_file parse_args]. rewrite Hl.
      unfold lift at 1. rewrite bind_pair, prepend_nil, Hr.
      unfold lift at 1. rewrite bind_pair, prepend_nil, bind_ret_l.
      rewrite Hs, call_Ok, bind_pair, bind_prepend, bind_ret_l, bind_prepend, bind_ret_l.
      cbn [fst snd].
      unfold save_reconstruction.
      change (mode (parse_args c)) with (match opt_mode c with Some m => m | None => 0%Z end).
      rewrite Hmode. change (1 =? 1)%Z with true. cbn iota.
      cbn [output_file plot parse_args]. unfold savetxt. rewrite Hw. unfold emit.
      rewrite bind_pair, prepend_prepend. reflexivity. }
    rewrite (main_of_run _ _ _ Hv).
    split; [| split].
    + destruct (exit_of_run (run tk w (parse_args c))) as [z le] eqn:E.
      assert (Hin : In (Call_cwt_synthesis (transpose_n 5 r) 100%Q)
                       (effects (run tk w (parse_args c))))
        by (rewrite Hrun; left; reflexivity).
      revert E. destruct (run tk w (parse_args c)) as [[[] | e] lr]; cbn [exit_of_run].
      * intros E; injection E as <- <-. exact Hin.
      * destruct e; intros E; injection E as <- <-; cbn [snd];
          try exact Hin; apply in_or_app; left; exact Hin.
    + rewrite written_exit_of_run, Hrun. unfold prepend, effects; cbn [snd].
      rewrite written_app.
      assert (Hsil : written (snd (when (opt_plot c)
                                     (plot_results w (parse_args c)
                                        (Some (transpose_n 5 r)) None (Some rec)))) = []).
      { apply (always_filter_nil is_savetxt). apply always_when, plot_results_silent. }
      rewrite Hsil. reflexivity.
    + intros Hp. rewrite Hrun, Hp. reflexivity.
Qed.

Lemma missing_mean_defaults_to_100_witness :
  main demo_tk demo_world (demo_command_line 1 "in/bands.cwt")
  = (0%Z, [Call_cwt_synthesis [[1; 10]; [2; 20]; [3; 30]; [4; 40]; [5; 50]]%Q 100%Q;
           Savetxt Reconstruction "out/rec.f0" (map fmt_f [115; 250]%Q)]).
Proof.
  refine (proj2 (proj2 (proj2 (proj2 (proj2 (missing_mean_defaults_to_100 demo_tk demo_world
                   (demo_command_line 1 "in/bands.cwt") eq_refl eq_refl)))
                [("wavelet", wavelet_section)]
                [[1; 2; 3; 4; 5]; [10; 20; 30; 40; 50]]%Q
                [[1; 2; 3; 4; 5]; [10; 20; 30; 40; 50]]%Q
                [115; 250]%Q _ _ _ _ _ _)) _).
  - simpl; lia.
  - reflexivity.
  - reflexivity.
  - reflexivity.
  - reflexivity.
  - reflexivity.
  - reflexivity.
Defined.

(** C2, as the claim states it, fails: a synthesis-only invocation without
    [-m] raises nothing; the synthesis runs with mean 100 and the program
    exits with status 0. *)
Lemma missing_mean_is_not_an_error :
  opt_mean_f0 (demo_command_line 1 "in/bands.cwt") = None
  /\ main demo_tk demo_world (demo_command_line 1 "in/bands.cwt")
     = (0%Z, [Call_cwt_synthesis [[1; 10]; [2; 20]; [3; 30]; [4; 40]; [5; 50]]%Q 100%Q;
              Savetxt Reconstruction "out/rec.f0" (map fmt_f [115; 250]%Q)]).
Proof. split; reflexivity. Qed.

(** ** Failures after the input was loaded (C8, C4) *)

Lemma load_f0_no_file_no_transform (tk : toolkit) (w : world) (input : string) :
  always (fun e => is_savetxt e = false /\ is_transform e = false) (load_f0 tk w input).
Proof. unfold load_f0; always_tac; split; reflexivity. Qed.

Lemma quiet_effects {A : Type} (m : M A) (r : result A) (l : list effect) :
  m = (r, l) ->
  always (fun e => is_savetxt e = false /\ is_transform e = false) m ->
  written l = [] /\ transforms l = [].
Proof.
  intros H Ha. unfold always in Ha. rewrite H in Ha. simpl in Ha.
  unfold written, transforms. clear H.
  induction Ha as [| e l' [H1 H2] _ IH]; simpl; [auto |].
  rewrite H1, H2. exact IH.
Qed.

Lemma load_f0_written (tk : toolkit) (w : world) (input : string)
      (r : result matrix) (l : list effect) :
  load_f0 tk w input = (r, l) -> written l = [] /\ transforms l = [].
Proof.
  intros H. apply (quiet_effects _ _ _ H), load_f0_no_file_no_transform.
Qed.

(** The plotting calls of lines 133-135, when they return. *)
Lemma analysis_plot_returns (w : world) (raw : matrix) (f0 : vector) :
  pylab_returns w ->
  (pylab w (Title "F0 preprocessing and interpolation") ;;;
   pylab w (Plot f0) ;;; pylab w (PlotRaw raw))
  = (Ok tt, [Pylab (Title "F0 preprocessing and interpolation");
             Pylab (Plot f0); Pylab (PlotRaw raw)]).
Proof. intros H. unfold pylab. rewrite !H. reflexivity. Qed.

(** The start of the analysis pass, up to the writing of the .interp file. *)
Lemma analysis_until_interp (tk : toolkit) (w : world) (a : args) (configuration : pydict)
      (raw : matrix) (l0 : list effect) (f0 : vector) :
  load_f0 tk w (input_file a) = (Ok raw, l0) ->
  process tk raw = Ok f0 ->
  (plot a = true -> pylab_returns w) ->
  writable w (output_base a ++ ".interp")%string = true ->
  exists l1,
    written l1 = [Savetxt Interp (output_base a ++ ".interp")%string (map fmt_f f0)]
    /\ transforms l1 = []
    /\ analysis tk w a configuration (output_base a)
       = prepend l1 (decompose_and_save tk w (output_base a) configuration f0).
Proof.
  intros Hl Hp Hpl Hw.
  destruct (load_f0_written _ _ _ _ _ Hl) as [Hw0 Ht0].
  exists (l0 ++ [Call_process raw]
             ++ (if plot a
                 then [Pylab (Title "F0 preprocessing and interpolation");
                       Pylab (Plot f0); Pylab (PlotRaw raw)]
                 else [])
             ++ [Savetxt Interp (output_base a ++ ".interp")%string (map fmt_f f0)]).
  split; [| split].
  - rewrite !written_app, Hw0. destruct (plot a); reflexivity.
  - rewrite !transforms_app, Ht0. destruct (plot a); reflexivity.
  - unfold analysis. rewrite Hl, bind_pair. rewrite Hp, call_Ok, bind_pair.
    unfold savetxt at 1. rewrite Hw.
    destruct (plot a).
    + cbn [when]. rewrite (analysis_plot_returns w raw f0 (Hpl eq_refl)), bind_pair.
      unfold emit. rewrite bind_pair, !prepend_prepend.
      rewrite <- !app_assoc. reflexivity.
    + change (when false _) with (@pair (result unit) (list effect) (Ok tt) []).
      rewrite bind_pair. unfold emit. rewrite bind_pair, !prepend_prepend.
      rewrite <- !app_assoc. reflexivity.
Qed.

Lemma run_configured_analysis_raise (tk : toolkit) (w : world) (a : args)
      (configuration : pydict) (e : exn) (l : list effect) :
  (mode a mod 2 = 0)%Z ->
  analysis tk w a configuration (output_base a) = (Raise e, l) ->
  run_configured tk w a configuration = (Raise e, l).
Proof.
  intros Hm Ha; unfold run_configured.
  apply Z.eqb_eq in Hm. rewrite Hm, Ha. reflexivity.
Qed.

Lemma wavelet_parameters_Raise (configuration : pydict) (e : exn) :
  wavelet_parameters configuration = Raise e ->
  (dict_get configuration "wavelet" = None -> e = TypeError "object is not subscriptable")
  /\ (forall m, dict_get configuration "wavelet" = Some (YMap m) ->
                exists k, e = KeyError k /\ dict_get m k = None
                          /\ In k ["num_scales"; "scale_distance"; "mother_wavelet"]).
Proof.
  unfold wavelet_parameters, defaultdict_getitem; intros H; split.
  - intros Hn; rewrite Hn in H; simpl in H. inversion H; reflexivity.
  - intros m Hs; rewrite Hs in H; simpl in H.
    destruct (dict_get m "num_scales") eqn:E1;
      [| inversion H; exists "num_scales"; simpl; auto].
    destruct (dict_get m "scale_distance") eqn:E2;
      [| inversion H; exists "scale_distance"; simpl; auto].
    destruct (dict_get m "mother_wavelet") eqn:E3;
      [discriminate H | inversion H; exists "mother_wavelet"; simpl; auto 6].
Qed.



(** The lookup succeeds exactly on a wavelet section that is a mapping with
    the three fields. *)
Lemma wavelet_parameters_Ok (configuration : pydict) (p : wavelet_params) :
  wavelet_parameters configuration = Ok p <->
  exists m, defaultdict_getitem configuration "wavelet" = YMap m
            /\ dict_get m "num_scales" = Some (num_scales p)
            /\ dict_get m "scale_distance" = Some (scale_distance p)
            /\ dict_get m "mother_wavelet" = Some (mother_name p).
Proof.
  unfold wavelet_parameters. split.
  - destruct (defaultdict_getitem configuration "wavelet") as [| b | z | q | x | m];
      try discriminate.
    cbn [getitem].
    destruct (dict_get m "num_scales") eqn:E1; [| discriminate].
    destruct (dict_get m "scale_distance") eqn:E2; [| discriminate].
    destruct (dict_get m "mother_wavelet") eqn:E3; [| discriminate].
    intros H; injection H as <-. exists m; auto.
  - intros (m & -> & H1 & H2 & H3). cbn [getitem]. rewrite H1, H2, H3.
    destruct p; reflexivity.
Qed.





(** C4, as the code has it.  When the wavelet decomposition or the scale
    combination raises, after the input was loaded and pre-processed (and,
    under the plot flag, plotted: the plotting calls of lines 133-135
    returned), the run fails with that exception and the pre-processed
    signal file (.interp), written before the decomposition, stays as the
    only artifact of the run. *)
Theorem decomposition_failure_keeps_interp
        (tk : toolkit) (w : world) (a : args) (configuration : pydict)
        (raw : matrix) (l0 : list effect) (f0 : vector) (p : wavelet_params) (e : exn) :
  (mode a mod 2 = 0)%Z ->
  load_f0 tk w (input_file a) = (Ok raw, l0) ->
  process tk raw = Ok f0 ->
  (plot a = true -> pylab_returns w) ->
  writable w (output_base a ++ ".interp")%string = true ->
  wavelet_parameters configuration = Ok p ->
  (cwt_analysis tk (vsub_scalar f0 (mean f0))
                (num_scales p) (scale_distance p) (mother_name p) false = Raise e
   \/ exists full,
        cwt_analysis tk (vsub_scalar f0 (mean f0))
                     (num_scales p) (scale_distance p) (mother_name p) false = Ok full
        /\ combine_scales tk full slices = Raise e) ->
  outcome (run_configured tk w a configuration) = Raise e
  /\ written (effects (run_configured tk w a configuration))
     = [Savetxt Interp (output_base a ++ ".interp")%string (map fmt_f f0)].
Proof.
  intros Hm Hl Hp Hpl Hw Hq Hfail.
  destruct (analysis_until_interp tk w a configuration raw l0 f0 Hl Hp Hpl Hw)
    as (l1 & Hw1 & Ht1 & Ha).
  assert (Hr : exists l2, written l2 = []
                          /\ run_configured tk w a configuration = (Raise e, l1 ++ l2)).
  { destruct Hfail as [H1 | (full & H1 & H2)].
    - eexists; split; [| apply run_configured_analysis_raise; [exact Hm |];
                         rewrite Ha; unfold decompose_and_save;
                         rewrite Hq; unfold lift; rewrite bind_pair, prepend_nil;
                         rewrite H1, call_Raise; reflexivity].
      reflexivity.
    - eexists; split; [| apply run_configured_analysis_raise; [exact Hm |];
                         rewrite Ha; unfold decompose_and_save;
                         rewrite Hq; unfold lift; rewrite bind_pair, prepend_nil;
                         rewrite H1, call_Ok, bind_pair;
                         rewrite H2, call_Raise; reflexivity].
      reflexivity. }
  destruct Hr as (l2 & Hw2 & Hr). rewrite Hr; simpl.
  rewrite written_app, Hw1, Hw2. split; reflexivity.
Qed.

Lemma decomposition_failure_keeps_interp_witness :
  outcome (run_configured demo_tk demo_world (demo_args 0 false "in/a.f0")
             [("wavelet", YMap [("num_scales", YInt 8); ("scale_distance", YFloat 1);
                                ("mother_wavelet", YStr "mexican_hat")])])
  = Raise (ConfigurationError "combination range")
  /\ written (effects (run_configured demo_tk demo_world (demo_args 0 false "in/a.f0")
             [("wavelet", YMap [("num_scales", YInt 8); ("scale_distance", YFloat 1);
                                ("mother_wavelet", YStr "mexican_hat")])]))
     = [Savetxt Interp "out/a.f0.interp" (map fmt_f [90; 120; 90]%Q)].
Proof.
  refine (decomposition_failure_keeps_interp demo_tk demo_world
            (demo_args 0 false "in/a.f0") _
            [[90]; [120]; [90]]%Q [Call_load_f0 "in/a.f0"] [90; 120; 90]%Q
            {| num_scales := YInt 8; scale_distance := YFloat 1;
               mother_name := YStr "mexican_hat" |}
            _ _ _ _ _ _ _ _).
  - reflexivity.
  - reflexivity.
  - reflexivity.
  - intros H; discriminate H.
  - reflexivity.
  - reflexivity.
  - right. eexists; split; reflexivity.
Defined.

(** C4, as the claim states it, fails: a run whose scale combination
    raises (eight scales for a plan that reaches twelve), a run whose
    decomposition raises, and a run whose configuration lacks [num_scales]
    all fail and leave the .interp file, and no other of the run's output
    files, behind. *)
Lemma failed_run_leaves_interp :
  (outcome (run demo_tk demo_world (demo_args_with "eight.yaml" 0 "in/a.f0"))
   = Raise (ConfigurationError "combination range")
   /\ written (effects (run demo_tk demo_world (demo_args_with "eight.yaml" 0 "in/a.f0")))
      = [Savetxt Interp "out/a.f0.interp" (map fmt_f [90; 120; 90]%Q)])
  /\ (outcome (run demo_tk demo_world (demo_args_with "twelve.yaml" 0 "in/a.f0"))
      = Raise (ToolError "num_scales")
      /\ written (effects (run demo_tk demo_world (demo_args_with "twelve.yaml" 0 "in/a.f0")))
         = [Savetxt Interp "out/a.f0.interp" (map fmt_f [90; 120; 90]%Q)])
  /\ (outcome (run demo_tk demo_world (demo_args_with "noscales.yaml" 0 "in/a.f0"))
      = Raise (KeyError "num_scales")
      /\ written (effects (run demo_tk demo_world (demo_args_with "noscales.yaml" 0 "in/a.f0")))
         = [Savetxt Interp "out/a.f0.interp" (map fmt_f [90; 120; 90]%Q)]).
Proof. repeat split; reflexivity. Qed.

(** ** The artifacts of a successful analysis (C5) *)

Ltac inv_bind H :=
  let a := fresh "a" in
  let l1 := fresh "l" in
  let l2 := fresh "l" in
  let H1 := fresh "H" in
  apply bind_Ok_inv in H; destruct H as (a & l1 & l2 & H1 & H & ->).

Lemma call_Ok_inv {A : Type} (e : effect) (r : result A) (a : A) (l : list effect) :
  call e r = (Ok a, l) -> r = Ok a /\ l = [e].
Proof. destruct r; unfold call; simpl; intros H; inversion H; auto. Qed.

Lemma lift_Ok_inv {A : Type} (r : result A) (a : A) (l : list effect) :
  lift r = (Ok a, l) -> r = Ok a /\ l = [].
Proof. unfold lift; intros H; inversion H; auto. Qed.

Lemma ret_Ok_inv {A : Type} (a b : A) (l : list effect) :
  ret a = (Ok b, l) -> b = a /\ l = [].
Proof. unfold ret; intros H; inversion H; auto. Qed.

Lemma savetxt_Ok_inv (w : world) (k : artifact) (path : string) (data : list Q)
      (u : unit) (l : list effect) :
  savetxt w k path data = (Ok u, l) ->
  writable w path = true /\ l = [Savetxt k path (map fmt_f data)].
Proof.
  unfold savetxt; destruct (writable w path); intros H; inversion H; auto.
Qed.

Lemma band_files_Ok_inv (w : world) (out : string) (bands : matrix) :
  forall (i : nat) (u : unit) (l : list effect),
    for_each (enumerate_from i bands)
      (fun ir => savetxt w (CwtBand (fst ir + 1))
                   (out ++ ".cwt." ++ decimal (fst ir + 1))%string (snd ir))
    = (Ok u, l) ->
    l = band_files out i bands.
Proof.
  induction bands as [| row bands IH]; intros i u l H.
  - inversion H; reflexivity.
  - simpl in H. inv_bind H.
    apply savetxt_Ok_inv in H0. destruct H0 as [_ ->].
    apply IH in H. subst. reflexivity.
Qed.

Lemma decompose_and_save_Ok_inv (tk : toolkit) (w : world) (out : string)
      (configuration : pydict) (f0 f0' : vector) (bands : matrix) (l : list effect) :
  decompose_and_save tk w out configuration f0 = (Ok (bands, f0'), l) ->
  f0' = f0 /\
  exists p full,
    wavelet_parameters configuration = Ok p
    /\ cwt_analysis tk (vsub_scalar f0 (mean f0))
         (num_scales p) (scale_distance p) (mother_name p) false = Ok full
    /\ combine_scales tk full slices = Ok bands
    /\ l = [Call_cwt_analysis (vsub_scalar f0 (mean f0))
              (num_scales p) (scale_distance p) (mother_name p) false;
            Call_combine_scales full slices;
            Savetxt CwtMatrix (out ++ ".cwt")%string
                    (map fmt_f (List.concat (transpose bands)))]
           ++ band_files out 0 bands.
Proof.
  unfold decompose_and_save; intros H.
  inv_bind H. apply lift_Ok_inv in H0. destruct H0 as [Hp ->].
  inv_bind H. apply call_Ok_inv in H0. destruct H0 as [Hfull ->].
  inv_bind H. apply call_Ok_inv in H0. destruct H0 as [Hbands ->].
  inv_bind H. apply savetxt_Ok_inv in H0. destruct H0 as [_ ->].
  inv_bind H. apply band_files_Ok_inv in H0. subst.
  inversion H; subst.
  split; [reflexivity |]. exists a, a0. rewrite app_nil_r. auto.
Qed.

Lemma analysis_Ok_inv (tk : toolkit) (w : world) (a : args) (configuration : pydict)
      (out : string) (bands : matrix) (f0 : vector) (l : list effect) :
  analysis tk w a configuration out = (Ok (bands, f0), l) ->
  exists raw p full l0,
    process tk raw = Ok f0
    /\ In (Call_process raw) l0
    /\ wavelet_parameters configuration = Ok p
    /\ cwt_analysis tk (vsub_scalar f0 (mean f0))
         (num_scales p) (scale_distance p) (mother_name p) false = Ok full
    /\ combine_scales tk full slices = Ok bands
    /\ written l0 = [] /\ transforms l0 = []
    /\ l = l0 ++ [Savetxt Interp (out ++ ".interp")%string (map fmt_f f0);
                  Call_cwt_analysis (vsub_scalar f0 (mean f0))
                    (num_scales p) (scale_distance p) (mother_name p) false;
                  Call_combine_scales full slices;
                  Savetxt CwtMatrix (out ++ ".cwt")%string
                          (map fmt_f (List.concat (transpose bands)))]
                ++ band_files out 0 bands.
Proof.
  unfold analysis; intros H.
  apply bind_Ok_inv in H as (raw & l0 & l1 & Hload & H & ->).
  destruct (load_f0_written _ _ _ _ _ Hload) as [Hw0 Ht0].
  apply bind_Ok_inv in H as (f & lp & l2 & Hp & H & ->).
  apply call_Ok_inv in Hp as [Hp ->].
  apply bind_Ok_inv in H as (u & lplot & l3 & Hplot & H & ->).
  assert (Hq : written lplot = [] /\ transforms lplot = []).
  { apply (quiet_effects _ _ _ Hplot). always_tac; split; reflexivity. }
  apply bind_Ok_inv in H as (u' & li & l4 & Hi & H & ->).
  apply savetxt_Ok_inv in Hi as [_ ->].
  apply decompose_and_save_Ok_inv in H as [-> (p & full & Hpar & Hf & Hb & ->)].
  exists raw, p, full, (l0 ++ [Call_process raw] ++ lplot).
  repeat split; try assumption.
  - apply in_or_app; right. left; reflexivity.
  - rewrite !written_app, Hw0, (proj1 Hq). reflexivity.
  - rewrite !transforms_app, Ht0, (proj2 Hq). reflexivity.
  - rewrite <- !app_assoc. reflexivity.
Qed.

Lemma analysis_Ok_loaded (tk : toolkit) (w : world) (a : args) (configuration : pydict)
      (out : string) (bands : matrix) (f0 : vector) (l : list effect) :
  analysis tk w a configuration out = (Ok (bands, f0), l) ->
  exists raw l0,
    load_f0 tk w (input_file a) = (Ok raw, l0)
    /\ process tk raw = Ok f0
    /\ In (Call_process raw) l.
Proof.
  unfold analysis; intros H.
  apply bind_Ok_inv in H as (raw & l0 & l1 & Hload & H & ->).
  apply bind_Ok_inv in H as (f & lp & l2 & Hp & H & ->).
  apply call_Ok_inv in Hp as [Hp ->].
  apply bind_Ok_inv in H as (u & lplot & l3 & Hplot & H & ->).
  apply bind_Ok_inv in H as (u' & li & l4 & Hi & H & ->).
  apply decompose_and_save_Ok_inv in H as [-> _].
  exists raw, l0. split; [exact Hload |]. split; [exact Hp |].
  apply in_or_app; right. left; reflexivity.
Qed.

Lemma load_configuration_Ok_inv (w : world) (a : args) (c : pydict) (l : list effect) :
  load_configuration w a = (Ok c, l) -> l = [].
Proof.
  intros H. pose proof (load_configuration_effects w a) as E.
  rewrite H in E. exact E.
Qed.

Lemma even_mode_not_1 (m : Z) : (m mod 2 = 0)%Z -> (m =? 1)%Z = false.
Proof. intros H; apply Z.eqb_neq; intros ->; discriminate H. Qed.

(** A successful run that performs the analysis pass. *)
Lemma run_even_Ok_inv (tk : toolkit) (w : world) (a : args) (u : unit) (l : list effect) :
  run tk w a = (Ok u, l) ->
  (mode a mod 2 = 0)%Z ->
  exists configuration bands f0 la lt,
    load_configuration w a = (Ok configuration, [])
    /\ analysis tk w a configuration (output_base a) = (Ok (bands, f0), la)
    /\ l = la ++ lt
    /\ ((1 <= mode a)%Z ->
        exists rec,
          cwt_synthesis tk bands (mean f0) = Ok rec
          /\ In (Call_cwt_synthesis bands (mean f0)) lt
          /\ written lt = [Savetxt Reconstruction (output_base a ++ "_rec.f0")%string
                                   (map fmt_f rec)])
    /\ ((mode a < 1)%Z -> written lt = []).
Proof.
  intros H Hm. unfold run in H.
  apply bind_Ok_inv in H as (configuration & lc & l1 & Hc & H & ->).
  pose proof (load_configuration_Ok_inv _ _ _ _ Hc) as ->.
  unfold run_configured in H.
  pose proof Hm as Hm'. apply Z.eqb_eq in Hm'. rewrite Hm' in H.
  apply bind_Ok_inv in H as (st & la' & lt & Ha & H & ->).
  apply bind_Ok_inv in Ha as ([bands f0] & la & lr & Ha & Hr & ->).
  apply ret_Ok_inv in Hr as [-> ->]. cbn [fst snd] in H.
  exists configuration, bands, f0, la, lt.
  split; [exact Hc |]. split; [exact Ha |].
  split; [rewrite app_nil_r; reflexivity |].
  split.
  - intros Hge. apply Z.leb_le in Hge. rewrite Hge in H. cbn [orb when] in H.
    apply bind_Ok_inv in H as (st' & ls & l2 & Hs & H & ->).
    apply bind_Ok_inv in Hs as ([s' rec] & ls' & lr & Hs & Hr & ->).
    apply ret_Ok_inv in Hr as [-> ->]. cbn [fst snd] in H.
    unfold synthesis in Hs. rewrite (even_mode_not_1 _ Hm) in Hs.
    cbn [fst snd] in Hs. rewrite bind_ret_l in Hs.
    apply bind_Ok_inv in Hs as (rec' & lcall & lr & Hcall & Hr & ->).
    apply call_Ok_inv in Hcall as [Hcall ->].
    apply ret_Ok_inv in Hr as [Hr ->]. inversion Hr; subst s' rec'. clear Hr.
    apply bind_Ok_inv in H as (u1 & lsave & lplot & Hsave & H & ->).
    unfold save_reconstruction in Hsave. rewrite (even_mode_not_1 _ Hm) in Hsave.
    apply savetxt_Ok_inv in Hsave as [_ ->].
    assert (Hplot : written lplot = []).
    { destruct (plot a); [| inversion H; reflexivity].
      pose proof (plot_results_silent w a (Some bands) (Some f0) (Some rec)) as Hsil.
      apply always_filter_nil in Hsil. cbn [when] in H. rewrite H in Hsil. exact Hsil. }
    exists rec. split; [exact Hcall |]. split; [left; reflexivity |].
    rewrite !written_app, Hplot. reflexivity.
  - intros Hlt. apply Z.leb_gt in Hlt. rewrite Hlt in H. cbn [orb when] in H.
    match type of H with
    | ?m = _ => assert (Hsil : always (fun e => is_savetxt e = false) m)
    end.
    { apply always_bind.
      - destruct (plot a); [| apply always_ret].
        apply always_bind; [apply synthesis_silent | intros; apply always_ret].
      - intros st'. apply always_bind; [apply always_ret | intros _].
        apply always_when, plot_results_silent. }
    apply always_filter_nil in Hsil. rewrite H in Hsil. exact Hsil.
Qed.

Lemma written_band_files (out : string) (i : nat) (bands : matrix) :
  written (band_files out i bands) = band_files out i bands.
Proof.
  unfold band_files. generalize i.
  induction bands as [| row bands IH]; intros j; simpl; [reflexivity |].
  unfold written in IH. rewrite IH. reflexivity.
Qed.

Lemma length_concat_rectangular (n : nat) (m : matrix) :
  rectangular n m -> List.length (List.concat m) = (List.length m * n)%nat.
Proof.
  induction 1 as [| row m Hrow _ IH]; simpl; [reflexivity |].
  rewrite length_app, IH, Hrow. reflexivity.
Qed.

Lemma rectangular_transpose_n (c : nat) (m : matrix) :
  rectangular (List.length m) (transpose_n c m).
Proof.
  unfold rectangular, transpose_n. apply Forall_forall. intros row Hin.
  apply in_map_iff in Hin. destruct Hin as (j & <- & _). apply length_map.
Qed.

(** The .cwt file of [bands], [k] rows of [n] samples, holds [n * k] values:
    [n] lines of [k] columns, one value per line. *)
Lemma cwt_file_size (n : nat) (bands : matrix) :
  bands <> [] -> rectangular n bands ->
  List.length (List.concat (transpose bands)) = (n * List.length bands)%nat.
Proof.
  intros Hne Hrect.
  rewrite (length_concat_rectangular (List.length bands)).
  - unfold transpose, transpose_n. rewrite length_map, length_seq.
    destruct bands as [| row bands]; [contradiction |].
    inversion Hrect; subst. reflexivity.
  - apply rectangular_transpose_n.
Qed.

(** C5, as the code has it.  Every successful run that performs the
    analysis pass (mode 0 or 2) persists three kinds of artifact, in this
    order: the pre-processed signal (.interp, one value per sample: the
    result [f0] of [process] on what [load_f0] returned), the combined-band
    matrix (.cwt, stored sample by sample, for N samples and k bands N * k
    values), and each combined band on its own (.cwt.1 ... .cwt.k); in mode
    2 the reconstruction follows.  The matrix written is the result of
    [combine_scales]: the decomposition that [cwt_analysis] returned for
    the mean-subtracted [f0] and the configured parameters is handed to
    [combine_scales] and is not written. *)
Theorem analysis_run_persists_bands (tk : toolkit) (w : world) (a : args) (l : list effect) :
  (mode a mod 2 = 0)%Z ->
  run tk w a = (Ok tt, l) ->
  exists raw f0 full bands tail,
    (exists l0, load_f0 tk w (input_file a) = (Ok raw, l0))
    /\ process tk raw = Ok f0
    /\ In (Call_process raw) l
    /\ (exists configuration p,
          load_configuration w a = (Ok configuration, [])
          /\ wavelet_parameters configuration = Ok p
          /\ cwt_analysis tk (vsub_scalar f0 (mean f0))
               (num_scales p) (scale_distance p) (mother_name p) false = Ok full
          /\ In (Call_cwt_analysis (vsub_scalar f0 (mean f0))
                   (num_scales p) (scale_distance p) (mother_name p) false) l)
    /\ In (Call_combine_scales full slices) l
    /\ combine_scales tk full slices = Ok bands
    /\ written l = analysis_files (output_base a) f0 bands ++ tail
    /\ ((mode a < 1)%Z -> tail = [])
    /\ ((1 <= mode a)%Z ->
        exists rec, tail = [Savetxt Reconstruction (output_base a ++ "_rec.f0")%string
                                    (map fmt_f rec)])
    /\ (forall n, bands <> [] -> rectangular n bands ->
                  List.length (List.concat (transpose bands))
                  = (n * List.length bands)%nat).
Proof.
  intros Hm H.
  destruct (run_even_Ok_inv _ _ _ _ _ H Hm)
    as (configuration & bands & f0 & la & lt & Hc & Ha & -> & Hge & Hlt).
  destruct (analysis_Ok_loaded _ _ _ _ _ _ _ _ Ha) as (raw & lload & Hload & Hproc & Hin).
  destruct (analysis_Ok_inv _ _ _ _ _ _ _ _ Ha)
    as (raw' & p & full & l0 & Hp & Hraw & Hq & Hf & Hb & Hw0 & Ht0 & Hla).
  exists raw, f0, full, bands, (written lt).
  split; [exists lload; exact Hload |].
  split; [exact Hproc |].
  split; [apply in_or_app; left; exact Hin |].
  subst la.
  split.
  { exists configuration, p. split; [exact Hc |]. split; [exact Hq |].
    split; [exact Hf |].
    apply in_or_app; left. apply in_or_app; right.
    right; left; reflexivity. }
  split; [| split; [exact Hb | split; [| split; [exact Hlt | split]]]].
  - apply in_or_app; left. apply in_or_app; right.
    right; right; left; reflexivity.
  - rewrite !written_app, Hw0, written_band_files. reflexivity.
  - intros Hge'. destruct (Hge Hge') as (rec & _ & _ & Hw). exists rec. exact Hw.
  - intros n. apply cwt_file_size.
Qed.

Lemma analysis_run_persists_bands_witness :
  exists raw f0 full bands tail,
    (exists l0, load_f0 demo_tk demo_world "in/a.f0" = (Ok raw, l0))
    /\ process demo_tk raw = Ok f0
    /\ In (Call_process raw) (effects (run demo_tk demo_world (demo_args 0 false "in/a.f0")))
    /\ (exists configuration p,
          load_configuration demo_world (demo_args 0 false "in/a.f0")
          = (Ok configuration, [])
          /\ wavelet_parameters configuration = Ok p
          /\ cwt_analysis demo_tk (vsub_scalar f0 (mean f0))
               (num_scales p) (scale_distance p) (mother_name p) false = Ok full
          /\ In (Call_cwt_analysis (vsub_scalar f0 (mean f0))
                   (num_scales p) (scale_distance p) (mother_name p) false)
                (effects (run demo_tk demo_world (demo_args 0 false "in/a.f0"))))
    /\ In (Call_combine_scales full slices)
          (effects (run demo_tk demo_world (demo_args 0 false "in/a.f0")))
    /\ combine_scales demo_tk full slices = Ok bands
    /\ written (effects (run demo_tk demo_world (demo_args 0 false "in/a.f0")))
       = analysis_files (output_base (demo_args 0 false "in/a.f0")) f0 bands ++ tail
    /\ ((mode (demo_args 0 false "in/a.f0") < 1)%Z -> tail = [])
    /\ ((1 <= mode (demo_args 0 false "in/a.f0"))%Z ->
        exists rec, tail = [Savetxt Reconstruction
                              (output_base (demo_args 0 false "in/a.f0") ++ "_rec.f0")%string
                              (map fmt_f rec)])
    /\ (forall n, bands <> [] -> rectangular n bands ->
                  List.length (List.concat (transpose bands))
                  = (n * List.length bands)%nat).
Proof.
  apply (analysis_run_persists_bands demo_tk demo_world (demo_args 0 false "in/a.f0")).
  - reflexivity.
  - reflexivity.
Defined.

(** C5, as the claim states it, fails: a successful analysis-only run on
    three samples, whose decomposition [demo_full] has twelve scales, writes
    seven files (.interp, .cwt and five bands) and none of them holds the
    decomposition. *)
Lemma full_scale_set_not_persisted :
  outcome (run demo_tk demo_world (demo_args 0 false "in/a.f0")) = Ok tt
  /\ In (Call_combine_scales demo_full slices)
        (effects (run demo_tk demo_world (demo_args 0 false "in/a.f0")))
  /\ map (fun e => match e with Savetxt k _ _ => Some k | _ => None end)
         (written (effects (run demo_tk demo_world (demo_args 0 false "in/a.f0"))))
     = [Some Interp; Some CwtMatrix; Some (CwtBand 1); Some (CwtBand 2);
        Some (CwtBand 3); Some (CwtBand 4); Some (CwtBand 5)]
  /\ (forall k path,
        ~ In (Savetxt k path (map fmt_f (List.concat (transpose demo_full))))
             (effects (run demo_tk demo_world (demo_args 0 false "in/a.f0")))).
Proof.
  split; [reflexivity |]. split; [| split; [reflexivity |]].
  - vm_compute. do 4 right. left. reflexivity.
  - intros k path H. vm_compute in H.
    repeat (destruct H as [H | H]; [discriminate H |]). exact H.
Qed.

Lemma plot_flag_changes_no_file_witness :
  pylab_returns demo_world
  /\ written (effects (run demo_tk demo_world (set_plot true (demo_args 0 false "in/a.f0"))))
     = written (effects (run demo_tk demo_world (set_plot false (demo_args 0 false "in/a.f0"))))
  /\ In (Call_cwt_synthesis demo_bands (mean [90; 120; 90]%Q))
        (effects (run demo_tk demo_world (set_plot true (demo_args 0 false "in/a.f0")))).
Proof.
  destruct (plot_flag_changes_no_file demo_tk demo_world (demo_args 0 false "in/a.f0"))
    as (H1 & _ & H2).
  assert (Hp : pylab_returns demo_world) by (intros cmd; reflexivity).
  split; [exact Hp |]. split; [exact (H1 Hp) |].
  destruct (H2 eq_refl) as (_ & _ & H3).
  apply (H3 [("wavelet", wavelet_section)] demo_bands [90; 120; 90]%Q
            (snd (analysis demo_tk demo_world
                    (set_plot true (demo_args 0 false "in/a.f0"))
                    [("wavelet", wavelet_section)]
                    (output_base (demo_args 0 false "in/a.f0"))))).
  - reflexivity.
  - vm_compute. reflexivity.
Defined.

(** C10, as the claim states it, fails: on a machine with no display the
    first plotting call of the analysis pass raises, so the run with the
    plot flag writes no file, while the same run without the flag writes
    the seven files of the analysis. *)
Lemma headless_plot_flag_loses_the_files :
  written (effects (run demo_tk headless_world (set_plot true (demo_args 0 false "in/a.f0"))))
  = []
  /\ written (effects (run demo_tk headless_world (set_plot false (demo_args 0 false "in/a.f0"))))
     = analysis_files "out/a.f0" [90; 120; 90]%Q demo_bands
  /\ run demo_tk headless_world (set_plot true (demo_args 0 false "in/a.f0"))
     = (Raise (DisplayError "no display name"),
        [Call_load_f0 "in/a.f0"; Call_process [[90]; [120]; [90]]%Q;
         Pylab (Title "F0 preprocessing and interpolation")]).
Proof. repeat split; reflexivity. Qed.

(** ** Mean subtraction and restoration in Both mode (C1) *)



Lemma nth_map_in_range {A B : Type} (f : A -> B) (l : list A) (i : nat) (d : A) (d' : B) :
  (i < List.length l)%nat -> nth i (map f l) d' = f (nth i l d).
Proof.
  intros H. rewrite (nth_indep _ d' (f d)) by (rewrite length_map; exact H).
  apply map_nth.
Qed.








(** ** Synthesis-only mode (C3) *)

Lemma map_seq_nth {A B : Type} (g : A -> B) (d : A) (l : list A) :
  map (fun i => g (nth i l d)) (seq 0 (List.length l)) = map g l.
Proof.
  induction l as [| x l IH]; [reflexivity |].
  cbn [List.length seq map nth]. rewrite <- seq_shift, map_map.
  cbn [nth]. rewrite IH. reflexivity.
Qed.

Lemma nth_map_column (j i : nat) (m : matrix) :
  nth i (map (fun row => nth j row 0%Q) m) 0%Q = nth j (nth i m []) 0%Q.
Proof.
  revert i; induction m as [| row m IH]; intros [| i]; simpl;
    solve [reflexivity | destruct j; reflexivity | apply IH].
Qed.

Lemma filter_all {A : Type} (f : A -> bool) (l : list A) :
  Forall (fun x => f x = true) l -> filter f l = l.
Proof.
  induction 1 as [| x l Hx _ IH]; simpl; [| rewrite Hx, IH]; reflexivity.
Qed.

Lemma chunk_concat (n : nat) (rows : matrix) :
  (0 < n)%nat -> rectangular n rows ->
  forall fuel, (List.length rows <= fuel)%nat ->
               chunk fuel n (List.concat rows) = rows.
Proof.
  intros Hn Hrect; induction Hrect as [| row rows Hrow _ IH]; intros fuel Hfuel.
  - destruct fuel; reflexivity.
  - destruct fuel as [| fuel]; [simpl in Hfuel; lia |].
    cbn [List.concat chunk].
    destruct (row ++ List.concat rows) as [| x rest] eqn:E.
    + destruct row; [simpl in Hrow; lia | discriminate E].
    + rewrite <- E. clear E. subst n.
      rewrite firstn_app, skipn_app, Nat.sub_diag, firstn_all, skipn_all.
      cbn [firstn skipn app]. rewrite app_nil_r.
      rewrite IH by (simpl in Hfuel; lia). reflexivity.
Qed.

(** A text file of lines of five values loads as it is and is regrouped, by
    [reshape(-1, 5)], into the same lines. *)
Lemma loadtxt_five_columns (w : world) (path : string) (rows : matrix) :
  fs w path = Some (FText rows) ->
  rectangular 5 rows ->
  loadtxt w path = Ok rows /\ reshape_cols 5 (List.concat rows) = Ok rows.
Proof.
  intros Hfs Hrect. split.
  - unfold loadtxt. rewrite Hfs.
    rewrite filter_all.
    + assert (H : forallb (fun r => (List.length r =? ncols rows)%nat) rows = true).
      { apply forallb_forall. intros r Hin.
        destruct rows as [| r0 rows']; [contradiction |].
        unfold ncols; cbn [hd].
        pose proof (proj1 (Forall_forall _ _) Hrect) as Hall.
        rewrite (Hall r Hin), (Hall r0 (or_introl eq_refl)). reflexivity. }
      rewrite H. reflexivity.
    + eapply Forall_impl; [| exact Hrect]. intros r Hr; simpl in Hr. rewrite Hr. reflexivity.
  - unfold reshape_cols.
    rewrite (length_concat_rectangular 5 rows Hrect), Nat.Div0.mod_mul.
    cbn [Nat.eqb]. rewrite chunk_concat; [reflexivity | lia | exact Hrect | lia].
Qed.

(** The synthesis of the specification on the five columns of [rows]: each
    sample is the sum of its line plus the mean. *)
Lemma synthesis_of_columns (rows : matrix) (m : Q) :
  rectangular 5 rows ->
  spec_cwt_synthesis (transpose_n 5 rows) m = map (fun row => Qsum row + m) rows.
Proof.
  intros Hrect. unfold spec_cwt_synthesis, transpose, ncols.
  unfold transpose_n at 2. cbn [seq map hd]. rewrite length_map.
  unfold transpose_n at 1. rewrite map_map.
  rewrite <- (map_seq_nth (fun row => Qsum row + m) [] rows).
  apply map_ext_in. intros i Hi. apply in_seq in Hi.
  unfold transpose_n. cbn [seq map]. rewrite !nth_map_column.
  assert (Hin : In (nth i rows []) rows) by (apply nth_In; lia).
  pose proof (proj1 (Forall_forall _ _) Hrect _ Hin) as Hlen. simpl in Hlen.
  destruct (nth i rows []) as [| ? row]; [discriminate Hlen |].
  do 4 (destruct row as [| ? row]; [discriminate Hlen |]).
  destruct row; [reflexivity | discriminate Hlen].
Qed.

(** C3, as the code has it.  For every persisted matrix of N lines by five
    columns, synthesis-only mode (mode 1) hands the synthesis the five
    columns as five rows of length N, together with the given mean, and, with
    the synthesis of the specification, writes for each sample the sum of the
    five values of its line plus the mean.  The regrouping of line 171 is by
    five: the number of columns is fixed. *)
Theorem synthesis_only_sums_five_columns
        (tk : toolkit) (w : world) (a : args) (configuration : pydict)
        (rows : matrix) (path : string) :
  mode a = 1%Z ->
  plot a = false ->
  load_configuration w a = (Ok configuration, []) ->
  cwt_synthesis tk = (fun r m => Ok (spec_cwt_synthesis r m)) ->
  fs w (input_file a) = Some (FText rows) ->
  rectangular 5 rows ->
  output_file a = Some path ->
  writable w path = true ->
  run tk w a
  = (Ok tt, [Call_cwt_synthesis (transpose_n 5 rows) (mean_f0 a);
             Savetxt Reconstruction path
                     (map fmt_f (map (fun row => Qsum row + mean_f0 a) rows))])
  /\ List.length (transpose_n 5 rows) = 5%nat
  /\ rectangular (List.length rows) (transpose_n 5 rows).
Proof.
  intros Hm Hp Hc Hs Hfs Hrect Ho Hw.
  destruct (loadtxt_five_columns w _ rows Hfs Hrect) as [Hl Hr].
  split; [| split; [reflexivity | apply rectangular_transpose_n]].
  unfold run. rewrite Hc, bind_pair, prepend_nil.
  unfold run_configured. rewrite Hm, Hp.
  change (1 mod 2 =? 0)%Z with false. change (1 <=? 1)%Z with true. cbn [orb when].
  rewrite bind_ret_l. cbn [fst snd].
  unfold synthesis. rewrite Hm, Hl. change (1 =? 1)%Z with true. cbn iota.
  unfold lift at 1. rewrite bind_pair, prepend_nil.
  rewrite Hr. unfold lift at 1. rewrite bind_pair, prepend_nil.
  rewrite !bind_ret_l.
  rewrite Hs, call_Ok. unfold ret. cbn [bind fst snd app].
  unfold save_reconstruction. rewrite Hm, Ho. change (1 =? 1)%Z with true. cbn iota.
  unfold savetxt. rewrite Hw. unfold emit, ret, prepend. cbn [bind fst snd app].
  rewrite synthesis_of_columns by exact Hrect. reflexivity.
Qed.

Lemma synthesis_only_sums_five_columns_witness :
  run demo_tk demo_world (demo_args 1 false "in/bands.cwt")
  = (Ok tt, [Call_cwt_synthesis
               (transpose_n 5 [[1; 2; 3; 4; 5]; [10; 20; 30; 40; 50]]%Q) 100%Q;
             Savetxt Reconstruction "out"
                     (map fmt_f (map (fun row => Qsum row + 100)
                                     [[1; 2; 3; 4; 5]; [10; 20; 30; 40; 50]]%Q))]).
Proof.
  refine (proj1 (synthesis_only_sums_five_columns demo_tk demo_world
                   (demo_args 1 false "in/bands.cwt") [("wavelet", wavelet_section)]
                   [[1; 2; 3; 4; 5]; [10; 20; 30; 40; 50]]%Q "out"
                   _ _ _ _ _ _ _ _)).
  - reflexivity.
  - reflexivity.
  - reflexivity.
  - reflexivity.
  - reflexivity.
  - repeat constructor.
  - reflexivity.
  - reflexivity.
Defined.

(** C3, as the claim states it, fails for k other than 5.  A persisted
    matrix of five lines by one column (N = 5, k = 1) is regrouped into one
    line of five: the synthesis receives five rows of length one and the run
    writes a single sample, 115, where the sum of the one row plus the mean
    is the five samples 101 ... 105; and a matrix of two lines by two columns
    is refused, four values not being a multiple of five. *)
Lemma synthesis_only_assumes_five_columns :
  fs demo_world "in/one.cwt" = Some (FText [[1]; [2]; [3]; [4]; [5]]%Q)
  /\ run demo_tk demo_world (demo_args 1 false "in/one.cwt")
     = (Ok tt, [Call_cwt_synthesis [[1]; [2]; [3]; [4]; [5]]%Q 100%Q;
                Savetxt Reconstruction "out" (map fmt_f [115]%Q)])
  /\ spec_cwt_synthesis (transpose [[1]; [2]; [3]; [4]; [5]]%Q) 100%Q
     = [101; 102; 103; 104; 105]%Q
  /\ fs demo_world "in/two.cwt" = Some (FText [[1; 2]; [3; 4]]%Q)
  /\ run demo_tk demo_world (demo_args 1 false "in/two.cwt")
     = (Raise (ValueError "cannot reshape array"), []).
Proof. repeat split; reflexivity. Qed.

(** ** The guards on the mode (C9) *)

Lemma odd_run_skips_analysis (tk : toolkit) (w : world) (a : args) :
  (mode a mod 2 =? 0)%Z = false -> always not_load_f0 (run tk w a).
Proof.
  intros E. unfold run, run_configured. rewrite E.
  unfold synthesis, save_reconstruction, plot_results, load_configuration.
  always_tac; exact I.
Qed.

Lemma low_mode_persists_no_reconstruction (tk : toolkit) (w : world) (a : args) :
  (1 <=? mode a)%Z = false -> always is_reconstruction_free (run tk w a).
Proof.
  intros E. unfold run, run_configured. rewrite E. cbn [orb when].
  unfold analysis, decompose_and_save, synthesis, plot_results, load_f0,
    load_configuration.
  always_tac; exact I.
Qed.

Lemma completed_run_persisted (tk : toolkit) (w : world) (a : args)
      (u : unit) (l : list effect) :
  run tk w a = (Ok u, l) -> (1 <= mode a)%Z -> persists Reconstruction l.
Proof.
  intros H Hge. apply Z.leb_le in Hge. unfold run in H.
  apply bind_Ok_inv in H as (configuration & lc & l1 & _ & H & ->).
  unfold run_configured in H. rewrite Hge in H. cbn [orb when] in H.
  apply bind_Ok_inv in H as (st & l2 & l3 & _ & H & ->).
  apply bind_Ok_inv in H as (st' & l4 & l5 & _ & H & ->).
  apply bind_Ok_inv in H as (u' & l6 & l7 & Hs & _ & ->).
  unfold save_reconstruction in Hs.
  destruct (snd st') as [r |]; [| discriminate Hs].
  destruct (if (mode a =? 1)%Z then output_file a
            else Some (output_base a ++ "_rec.f0")%string) as [path |];
    [| discriminate Hs].
  apply savetxt_Ok_inv in Hs as [_ ->].
  exists path, (map fmt_f r).
  apply in_or_app; right. apply in_or_app; right. apply in_or_app; right.
  left; reflexivity.
Qed.

Lemma mean_f0_unused (tk : toolkit) (w : world) (a : args) (m : Q) :
  mode a <> 1%Z -> run tk w (set_mean_f0 m a) = run tk w a.
Proof.
  intros Hne. apply Z.eqb_neq in Hne.
  unfold run, run_configured, synthesis.
  cbn [mode mean_f0 plot input_file set_mean_f0]. rewrite Hne. reflexivity.
Qed.

Lemma odd_mode_above_1 (tk : toolkit) (w : world) (a : args) (configuration : pydict) :
  load_configuration w a = (Ok configuration, []) ->
  (mode a mod 2 = 1)%Z -> (1 < mode a)%Z ->
  (exists e, run tk w a = (Raise e, []))
  /\ (forall m r, loadtxt w (input_file a) = Ok m ->
                  reshape_cols 5 (List.concat m) = Ok r ->
                  run tk w a = (Raise (UnboundLocalError "f0"), [])).
Proof.
  intros Hc Hodd Hgt.
  assert (E2 : (mode a mod 2 =? 0)%Z = false) by (apply Z.eqb_neq; lia).
  assert (E1 : (mode a =? 1)%Z = false) by (apply Z.eqb_neq; lia).
  assert (Ege : (1 <=? mode a)%Z = true) by (apply Z.leb_le; lia).
  assert (Hrun : run tk w a
                 = match loadtxt w (input_file a) with
                   | Raise e => (Raise e, [])
                   | Ok m => match reshape_cols 5 (List.concat m) with
                             | Raise e => (Raise e, [])
                             | Ok _ => (Raise (UnboundLocalError "f0"), [])
                             end
                   end).
  { unfold run. rewrite Hc, bind_pair, prepend_nil.
    unfold run_configured. rewrite E2, Ege. cbn [orb]. rewrite bind_ret_l.
    cbn [fst snd]. unfold synthesis. rewrite E1.
    destruct (loadtxt w (input_file a)) as [m | e]; [| reflexivity].
    unfold lift at 1. rewrite bind_pair, prepend_nil.
    destruct (reshape_cols 5 (List.concat m)) as [r | e]; reflexivity. }
  split.
  - rewrite Hrun. destruct (loadtxt w (input_file a)) as [m | e]; [| eauto].
    destruct (reshape_cols 5 (List.concat m)); eauto.
  - intros m r Hl Hr. rewrite Hrun, Hl, Hr. reflexivity.
Qed.

(** C9, as the code has it.  For every integer mode, once the
    configuration is loaded: the analysis pass runs if and only if the mode
    is even; a reconstruction is persisted only if mode >= 1, and on every
    run that completes if and only if mode >= 1; the given [mean_f0] is used
    only when the mode is exactly 1 (for any other mode the run does not
    depend on it, and in mode 1 every synthesis call receives it); and every
    odd mode greater than 1 skips the analysis and fails without any effect,
    on the undefined [f0] as soon as the input matrix loads, so that it
    persists no reconstruction. *)
Theorem mode_guards (tk : toolkit) (w : world) (a : args) (configuration : pydict) :
  load_configuration w a = (Ok configuration, []) ->
  (In (Call_load_f0 (input_file a)) (effects (run tk w a)) <-> (mode a mod 2 = 0)%Z)
  /\ (persists Reconstruction (effects (run tk w a)) -> (1 <= mode a)%Z)
  /\ (outcome (run tk w a) = Ok tt ->
      (persists Reconstruction (effects (run tk w a)) <-> (1 <= mode a)%Z))
  /\ (mode a <> 1%Z -> forall m, run tk w (set_mean_f0 m a) = run tk w a)
  /\ (mode a = 1%Z ->
      forall rows m, In (Call_cwt_synthesis rows m) (effects (run tk w a)) ->
                     m = mean_f0 a)
  /\ ((mode a mod 2 = 1)%Z -> (1 < mode a)%Z ->
      ~ In (Call_load_f0 (input_file a)) (effects (run tk w a))
      /\ (exists e, run tk w a = (Raise e, []))
      /\ (forall m r, loadtxt w (input_file a) = Ok m ->
                      reshape_cols 5 (List.concat m) = Ok r ->
                      run tk w a = (Raise (UnboundLocalError "f0"), []))
      /\ ~ persists Reconstruction (effects (run tk w a))).
Proof.
  intros Hc.
  assert (Hpers : persists Reconstruction (effects (run tk w a)) -> (1 <= mode a)%Z).
  { intros (path & data & Hin).
    destruct (1 <=? mode a)%Z eqn:E; [apply Z.leb_le; exact E |].
    apply (always_In _ _ _ (low_mode_persists_no_reconstruction tk w a E)) in Hin.
    destruct Hin. }
  split; [| split; [exact Hpers | split; [| split; [| split]]]].
  - split.
    + intros Hin. destruct (mode a mod 2 =? 0)%Z eqn:E; [apply Z.eqb_eq; exact E |].
      apply (always_In _ _ _ (odd_run_skips_analysis tk w a E)) in Hin. destruct Hin.
    + intros Hm. apply Z.eqb_eq in Hm.
      unfold run. apply in_effects_bind_r with configuration []; [exact Hc |].
      unfold run_configured. rewrite Hm.
      do 3 apply in_effects_bind_l. unfold load_f0.
      apply in_effects_bind_l. left; reflexivity.
  - intros Hok. split; [exact Hpers |]. intros Hge.
    destruct (run tk w a) as [r l] eqn:E. simpl in Hok. subst r.
    exact (completed_run_persisted _ _ _ _ _ E Hge).
  - intros Hne m. apply mean_f0_unused, Hne.
  - intros Hm rows m Hin.
    apply (always_In _ _ _ (run_mode_1_mean tk w a Hm)) in Hin. exact Hin.
  - intros Hodd Hgt.
    destruct (odd_mode_above_1 tk w a configuration Hc Hodd Hgt) as [[e He] Hf].
    split; [| split; [exists e; exact He | split; [exact Hf |]]].
    + rewrite He. intros [].
    + rewrite He. intros (path & data & []).
Qed.

Lemma mode_guards_witness :
  (In (Call_load_f0 "in/bands.cwt")
      (effects (run demo_tk demo_world (demo_args 3 false "in/bands.cwt")))
   <-> (3 mod 2 = 0)%Z)
  /\ run demo_tk demo_world (demo_args 3 false "in/bands.cwt")
     = (Raise (UnboundLocalError "f0"), [])
  /\ (persists Reconstruction
        (effects (run demo_tk demo_world (demo_args 2 false "in/a.f0")))
      <-> (1 <= 2)%Z).
Proof.
  pose proof (mode_guards demo_tk demo_world (demo_args 3 false "in/bands.cwt")
                [("wavelet", wavelet_section)] eq_refl)
    as (H1 & _ & _ & _ & _ & H6).
  pose proof (mode_guards demo_tk demo_world (demo_args 2 false "in/a.f0")
                [("wavelet", wavelet_section)] eq_refl)
    as (_ & _ & H3 & _).
  split; [exact H1 | split; [| exact (H3 eq_refl)]].
  destruct (H6 eq_refl eq_refl) as (_ & _ & Hf & _).
  exact (Hf [[1; 2; 3; 4; 5]; [10; 20; 30; 40; 50]]%Q
            [[1; 2; 3; 4; 5]; [10; 20; 30; 40; 50]]%Q eq_refl eq_refl).
Defined.

(** C9, as the claim states it, fails at mode 3: the mode is at least 1,
    yet the run raises on the undefined [f0] before the reconstruction is
    saved, and nothing is persisted. *)
Lemma mode_3_persists_no_reconstruction :
  (1 <= mode (demo_args 3 false "in/bands.cwt"))%Z
  /\ run demo_tk demo_world (demo_args 3 false "in/bands.cwt")
     = (Raise (UnboundLocalError "f0"), [])
  /\ ~ persists Reconstruction
       (effects (run demo_tk demo_world (demo_args 3 false "in/bands.cwt"))).
Proof.
  split; [simpl; lia |]. split; [reflexivity |].
  intros (path & data & H). vm_compute in H. exact H.
Qed.

(** * Further properties of the script *)

(** ** The configuration files *)

(** X1.  With a user configuration file, lines 102-110 still load the default
    file first, so it must be present and a mapping; but the user's mapping
    then replaces it whole: nothing of the default is kept, and a key that
    only the default defines reads as False. *)
Theorem user_configuration_replaces_default (w : world) (a : args) (path : string) :
  configuration_file a = Some path ->
  (forall e, load_yaml w (default_configuration_path w) = Raise e ->
             load_configuration w a = (Raise e, []))
  /\ (forall ydef cdef user,
        load_yaml w (default_configuration_path w) = Ok ydef ->
        to_defaultdict ydef = Ok cdef ->
        load_yaml w path = Ok (YMap user) ->
        load_configuration w a = (Ok user, [])
        /\ forall key, dict_get user key = None ->
                       defaultdict_getitem user key = YBool false).
Proof.
  intros Hp; split.
  - intros e He. unfold load_configuration. rewrite He. reflexivity.
  - intros ydef cdef user Hd Hc Hu. split.
    + assert (Hne : is_empty path = false).
      { destruct path; [unfold load_yaml in Hu; discriminate Hu | reflexivity]. }
      unfold load_configuration. rewrite Hd, Hp, Hne, Hu. cbn [lift bind app].
      rewrite Hc. reflexivity.
    + intros key Hk. unfold defaultdict_getitem. rewrite Hk. reflexivity.
Qed.

Lemma user_configuration_replaces_default_witness :
  load_configuration demo_world (demo_args_with "nowavelet.yaml" 0 "in/a.f0")
  = (Ok [("wavelets", wavelet_section)], [])
  /\ defaultdict_getitem [("wavelets", wavelet_section)] "wavelet" = YBool false.
Proof.
  destruct (proj2 (user_configuration_replaces_default demo_world
                     (demo_args_with "nowavelet.yaml" 0 "in/a.f0") "nowavelet.yaml"
                     eq_refl)
                  (YMap [("wavelet", wavelet_section)]) [("wavelet", wavelet_section)]
                  [("wavelets", wavelet_section)] eq_refl eq_refl eq_refl) as [H1 H2].
  split; [exact H1 | exact (H2 "wavelet" eq_refl)].
Defined.

(** X2.  A user configuration file that cannot be opened does not produce the
    report and the exit status 1 of lines 112-114: the handler reads
    [args.config], which the parser never defines, so the run raises
    AttributeError before anything else happens and the program exits with
    status -1.  This is for a file name that is not empty: the test of line
    107 is false for [-c ''], and the run then keeps the default
    configuration and opens no user file. *)
Theorem missing_user_configuration_attribute_error
        (tk : toolkit) (w : world) (c : command_line) (path : string)
        (ydef : yaml) (cdef : pydict) :
  opt_configuration_file c = Some path ->
  load_yaml w (default_configuration_path w) = Ok ydef ->
  to_defaultdict ydef = Ok cdef ->
  (path <> EmptyString ->
   fs w path = None ->
   run tk w (parse_args c) = (Raise (AttributeError "config"), [])
   /\ (opt_verbosity c <> 3%nat ->
       main tk w c = ((-1)%Z, [LogError "ERROR, UNEXPECTED EXCEPTION";
                               LogException (AttributeError "config")])))
  /\ (path = EmptyString ->
      load_configuration w (parse_args c) = (Ok cdef, [])
      /\ run tk w (parse_args c) = run_configured tk w (parse_args c) cdef).
Proof.
  intros Hp Hd Hc. split.
  - intros Hne Hfs.
    assert (He : is_empty path = false) by (destruct path; [contradiction | reflexivity]).
    assert (Hrun : run tk w (parse_args c) = (Raise (AttributeError "config"), [])).
    { unfold run, load_configuration. rewrite Hd. cbn [lift bind app].
      rewrite Hc. cbn [configuration_file parse_args]. rewrite Hp, He.
      unfold load_yaml at 1. rewrite He, Hfs. reflexivity. }
    split; [exact Hrun |].
    intros Hv. rewrite main_of_run by exact Hv. rewrite Hrun. reflexivity.
  - intros ->.
    assert (Hl : load_configuration w (parse_args c) = (Ok cdef, [])).
    { unfold load_configuration. rewrite Hd. cbn [lift bind app].
      rewrite Hc. cbn [configuration_file parse_args]. rewrite Hp. reflexivity. }
    split; [exact Hl |].
    unfold run. rewrite Hl, bind_pair, prepend_nil. reflexivity.
Qed.

Lemma missing_user_configuration_attribute_error_witness :
  run demo_tk demo_world
      (parse_args {| opt_configuration_file := Some "missing.yaml"; opt_mode := None;
                     opt_mean_f0 := None; opt_plot := false; opt_verbosity := 0;
                     arg_input_file := "in/a.f0"; arg_output_file := "out" |})
  = (Raise (AttributeError "config"), [])
  /\ load_configuration demo_world
       (parse_args {| opt_configuration_file := Some EmptyString; opt_mode := None;
                      opt_mean_f0 := None; opt_plot := false; opt_verbosity := 0;
                      arg_input_file := "in/a.f0"; arg_output_file := "out" |})
     = (Ok [("wavelet", wavelet_section)], []).
Proof.
  split.
  - refine (proj1 (proj1 (missing_user_configuration_attribute_error demo_tk demo_world
                     {| opt_configuration_file := Some "missing.yaml"; opt_mode := None;
                        opt_mean_f0 := None; opt_plot := false; opt_verbosity := 0;
                        arg_input_file := "in/a.f0"; arg_output_file := "out" |}
                     "missing.yaml" (YMap [("wavelet", wavelet_section)])
                     [("wavelet", wavelet_section)] _ _ _) _ _)).
    + reflexivity.
    + reflexivity.
    + reflexivity.
    + discriminate.
    + reflexivity.
  - refine (proj1 (proj2 (missing_user_configuration_attribute_error demo_tk demo_world
                     {| opt_configuration_file := Some EmptyString; opt_mode := None;
                        opt_mean_f0 := None; opt_plot := false; opt_verbosity := 0;
                        arg_input_file := "in/a.f0"; arg_output_file := "out" |}
                     EmptyString (YMap [("wavelet", wavelet_section)])
                     [("wavelet", wavelet_section)] _ _ _) _)); reflexivity.
Defined.

(** ** The entry point *)

(** X3.  The verbosity guard of line 240 uses [>] where the index needs [>=]:
    with exactly three [-v], [LEVEL[3]] raises IndexError, [run] is never
    started and the program exits with status -1; for every other count
    [run] is started and decides the exit status. *)
Theorem verbosity_three_index_error (tk : toolkit) (w : world) (c : command_line) :
  (opt_verbosity c = 3%nat ->
   main tk w c = ((-1)%Z, [LogError "ERROR, UNEXPECTED EXCEPTION";
                           LogException IndexError]))
  /\ (opt_verbosity c <> 3%nat ->
      main tk w c = exit_of_run (run tk w (parse_args c))).
Proof.
  split.
  - intros Hv. unfold main. cbn [verbosity parse_args]. rewrite Hv. reflexivity.
  - intros Hv. apply main_of_run. exact Hv.
Qed.

Lemma verbosity_three_index_error_witness :
  main demo_tk demo_world (demo_command_line 0 "in/a.txt")
  = exit_of_run (run demo_tk demo_world (parse_args (demo_command_line 0 "in/a.txt"))).
Proof.
  apply (proj2 (verbosity_three_index_error demo_tk demo_world
                  (demo_command_line 0 "in/a.txt"))).
  simpl; lia.
Defined.

(** ** The mode *)

(** X5.  A run depends on the integer mode only through its three tests (even,
    at least 1, equal to 1): every even mode from 2 up runs exactly as mode
    2, and every even mode from 0 down exactly as mode 0. *)
Theorem mode_behaviour_classes (tk : toolkit) (w : world) (a : args) (m1 m2 : Z) :
  ((m1 mod 2 =? 0) = (m2 mod 2 =? 0) ->
   (1 <=? m1) = (1 <=? m2) ->
   (m1 =? 1) = (m2 =? 1) ->
   run tk w (set_mode m1 a) = run tk w (set_mode m2 a))%Z
  /\ ((m1 mod 2 = 0)%Z -> (2 <= m1)%Z ->
      run tk w (set_mode m1 a) = run tk w (set_mode 2 a))
  /\ ((m1 mod 2 = 0)%Z -> (m1 <= 0)%Z ->
      run tk w (set_mode m1 a) = run tk w (set_mode 0 a)).
Proof.
  assert (H : forall n1 n2,
             ((n1 mod 2 =? 0) = (n2 mod 2 =? 0) ->
              (1 <=? n1) = (1 <=? n2) ->
              (n1 =? 1) = (n2 =? 1) ->
              run tk w (set_mode n1 a) = run tk w (set_mode n2 a))%Z).
  { intros n1 n2 H1 H2 H3.
    unfold run, run_configured, synthesis, save_reconstruction, plot_results.
    cbn [mode plot input_file output_file mean_f0 set_mode].
    rewrite H1, H2, H3. reflexivity. }
  split; [apply H | split].
  - intros He Hge. apply H.
    + apply Z.eqb_eq in He. rewrite He. reflexivity.
    + apply Z.leb_le. lia.
    + replace (m1 =? 1)%Z with false by (symmetry; apply Z.eqb_neq; lia). reflexivity.
  - intros He Hle. apply H.
    + apply Z.eqb_eq in He. rewrite He. reflexivity.
    + apply Z.leb_gt. lia.
    + replace (m1 =? 1)%Z with false by (symmetry; apply Z.eqb_neq; lia). reflexivity.
Qed.

Lemma mode_behaviour_classes_witness :
  run demo_tk demo_world (set_mode 4 (demo_args 0 false "in/a.f0"))
  = run demo_tk demo_world (set_mode 2 (demo_args 0 false "in/a.f0")).
Proof.
  apply (proj1 (proj2 (mode_behaviour_classes demo_tk demo_world
                         (demo_args 0 false "in/a.f0") 4 2))).
  - reflexivity.
  - lia.
Defined.

Lemma odd_run_structure (tk : toolkit) (w : world) (a : args) (configuration : pydict) :
  load_configuration w a = (Ok configuration, []) ->
  (mode a mod 2 =? 0)%Z = false ->
  run tk w a
  = (st' <- (if (1 <=? mode a)%Z || plot a then
               r <- synthesis tk w a None None ;;
               ret (Some (fst r), Some (snd r))
             else ret (None, None)) ;;
     when (1 <=? mode a)%Z (save_reconstruction w a (output_base a) (snd st')) ;;;
     when (plot a) (plot_results w a (fst st') None (snd st'))).
Proof.
  intros Hc E. unfold run. rewrite Hc, bind_pair, prepend_nil.
  unfold run_configured. rewrite E, bind_ret_l. reflexivity.
Qed.

(** X6.  An odd mode below 1 (such as -1) selects neither the analysis nor the
    saving of a reconstruction.  Without the plot flag the run does nothing
    and succeeds; with it, the synthesis step is entered without a signal and
    the run fails before any effect, on the undefined [f0] once the input
    matrix has loaded. *)
Theorem odd_mode_below_1 (tk : toolkit) (w : world) (a : args) (configuration : pydict) :
  load_configuration w a = (Ok configuration, []) ->
  (mode a mod 2 = 1)%Z -> (mode a < 1)%Z ->
  (plot a = false -> run tk w a = (Ok tt, []))
  /\ (plot a = true ->
      (exists e, run tk w a = (Raise e, []))
      /\ forall m r, loadtxt w (input_file a) = Ok m ->
                     reshape_cols 5 (List.concat m) = Ok r ->
                     run tk w a = (Raise (UnboundLocalError "f0"), [])).
Proof.
  intros Hc Hodd Hlt.
  assert (E2 : (mode a mod 2 =? 0)%Z = false) by (apply Z.eqb_neq; lia).
  assert (E1 : (mode a =? 1)%Z = false) by (apply Z.eqb_neq; lia).
  assert (Ege : (1 <=? mode a)%Z = false) by (apply Z.leb_gt; lia).
  rewrite (odd_run_structure tk w a configuration Hc E2), Ege. cbn [orb when].
  split.
  - intros Hp. rewrite Hp. reflexivity.
  - intros Hp. rewrite Hp. unfold synthesis. rewrite E1.
    match goal with
    | |- (exists e, ?run = _) /\ _ =>
        assert (Hrun : run
                       = match loadtxt w (input_file a) with
                         | Raise e => (Raise e, [])
                         | Ok m => match reshape_cols 5 (List.concat m) with
                                   | Raise e => (Raise e, [])
                                   | Ok _ => (Raise (UnboundLocalError "f0"), [])
                                   end
                         end)
    end.
    { destruct (loadtxt w (input_file a)) as [m | e]; [| reflexivity].
      unfold lift at 1. rewrite bind_pair, prepend_nil.
      destruct (reshape_cols 5 (List.concat m)) as [r | e]; reflexivity. }
    rewrite Hrun. split.
    + destruct (loadtxt w (input_file a)) as [m | e]; [| eauto].
      destruct (reshape_cols 5 (List.concat m)); eauto.
    + intros m r Hl Hr. rewrite Hl, Hr. reflexivity.
Qed.

Lemma odd_mode_below_1_witness :
  run demo_tk demo_world (demo_args (-1) false "in/bands.cwt") = (Ok tt, [])
  /\ run demo_tk demo_world (demo_args (-1) true "in/bands.cwt")
     = (Raise (UnboundLocalError "f0"), []).
Proof.
  split.
  - apply (proj1 (odd_mode_below_1 demo_tk demo_world (demo_args (-1) false "in/bands.cwt")
                    [("wavelet", wavelet_section)] eq_refl eq_refl eq_refl)).
    reflexivity.
  - destruct (proj2 (odd_mode_below_1 demo_tk demo_world
                       (demo_args (-1) true "in/bands.cwt")
                       [("wavelet", wavelet_section)] eq_refl eq_refl eq_refl) eq_refl)
      as [_ H].
    exact (H [[1; 2; 3; 4; 5]; [10; 20; 30; 40; 50]]%Q
             [[1; 2; 3; 4; 5]; [10; 20; 30; 40; 50]]%Q eq_refl eq_refl).
Defined.

Lemma savetxt_writes_at_most_one (w : world) (k : artifact) (path : string) (data : list Q) :
  (List.length (written (effects (savetxt w k path data))) <= 1)%nat.
Proof. unfold savetxt; destruct (writable w path); simpl; lia. Qed.

Lemma save_reconstruction_writes_at_most_one (w : world) (a : args) (out : string)
      (rec : option vector) :
  (List.length (written (effects (save_reconstruction w a out rec))) <= 1)%nat.
Proof.
  unfold save_reconstruction. destruct rec as [r |]; [| simpl; lia].
  destruct (if (mode a =? 1)%Z then output_file a else Some (out ++ "_rec.f0")%string);
    [apply savetxt_writes_at_most_one | simpl; lia].
Qed.

Lemma odd_run_writes_at_most_one (tk : toolkit) (w : world) (a : args) :
  (mode a mod 2 =? 0)%Z = false ->
  (List.length (written (effects (run tk w a))) <= 1)%nat.
Proof.
  intros Hodd.
  unfold run. rewrite effects_bind, written_app, load_configuration_effects.
  destruct (outcome (load_configuration w a)) as [configuration |]; [| simpl; lia].
  unfold run_configured. rewrite Hodd, bind_ret_l. cbn [fst snd app written filter].
  rewrite effects_bind, written_app.
  match goal with
  | |- (List.length (written (effects ?m) ++ _) <= 1)%nat =>
      assert (Hs : written (effects m) = [])
  end.
  { apply always_filter_nil.
    destruct ((1 <=? mode a)%Z || plot a); [| apply always_ret].
    apply always_bind; [apply synthesis_silent | intros; apply always_ret]. }
  rewrite Hs. cbn [app].
  match goal with
  | |- context [match ?o with Ok _ => _ | Raise _ => _ end] => destruct o as [st' |]
  end; [| simpl; lia].
  rewrite effects_bind, written_app.
  assert (Hp : forall u : unit,
             written (effects (when (plot a)
                                 (plot_results w a (fst st') None (snd st')))) = []).
  { intros _. apply always_filter_nil. apply always_when, plot_results_silent. }
  pose proof (save_reconstruction_writes_at_most_one w a (output_base a) (snd st'))
    as Hsave.
  destruct (1 <=? mode a)%Z; cbn [when].
  - destruct (outcome (save_reconstruction w a (output_base a) (snd st')));
      cbv beta; [rewrite Hp by exact tt | cbn [written filter]];
      rewrite app_nil_r; exact Hsave.
  - change (outcome (ret tt)) with (@Ok unit tt).
    change (effects (ret tt)) with (@nil effect). cbv beta iota.
    rewrite Hp by exact tt. simpl; lia.
Qed.

(** X7.  A run in an odd mode (synthesis only) never loads or pre-processes a
    signal and never calls the forward transform or the combination: all it
    does is call the synthesis, write the reconstruction and plot; and it
    writes at most one file. *)
Theorem odd_mode_writes_only_the_reconstruction (tk : toolkit) (w : world) (a : args) :
  (mode a mod 2 <> 0)%Z ->
  (forall e, In e (effects (run tk w a)) -> synthesis_only_effect e)
  /\ (List.length (written (effects (run tk w a))) <= 1)%nat.
Proof.
  intros Hodd. apply Z.eqb_neq in Hodd. split.
  - intros e. apply (always_In synthesis_only_effect).
    unfold run, run_configured. rewrite Hodd.
    unfold synthesis, save_reconstruction, plot_results, load_configuration.
    always_tac; exact I.
  - apply odd_run_writes_at_most_one, Hodd.
Qed.

Lemma odd_mode_writes_only_the_reconstruction_witness :
  (List.length (written (effects (run demo_tk demo_world
                                    (demo_args 1 true "in/bands.cwt")))) <= 1)%nat.
Proof.
  apply (proj2 (odd_mode_writes_only_the_reconstruction demo_tk demo_world
                  (demo_args 1 true "in/bands.cwt") ltac:(discriminate))).
Defined.

(** ** Loading the signal *)

Lemma always_bind_outcome (P : effect -> Prop) {A B : Type} (m : M A) (f : A -> M B) :
  always P m -> (forall a, outcome m = Ok a -> always P (f a)) -> always P (bind m f).
Proof.
  unfold always; intros Hm Hf; rewrite effects_bind.
  apply Forall_app; split; [exact Hm |].
  destruct (outcome m) as [a |]; [apply Hf; reflexivity | constructor].
Qed.

Lemma always_impl (P Q : effect -> Prop) {A : Type} (m : M A) :
  (forall e, P e -> Q e) -> always P m -> always Q m.
Proof. intros H; unfold always; apply Forall_impl; exact H. Qed.

Lemma outcome_call {A : Type} (e : effect) (r : result A) : outcome (call e r) = r.
Proof. destruct r; reflexivity. Qed.

Lemma load_f0_wav_tools (tk : toolkit) (w : world) (input : string) :
  always (wav_tools_in_order tk input) (load_f0 tk w input).
Proof.
  unfold load_f0. apply always_bind; [apply always_emit; exact I | intros _].
  destruct (endswith (lower input) ".f0") eqn:E1; [apply always_lift |].
  destruct (endswith (lower input) ".wav") eqn:E2; [| apply always_raise].
  apply always_bind_outcome.
  - apply always_call. simpl. auto.
  - intros [rate wav_form] H. rewrite outcome_call in H.
    apply always_call. simpl. exact H.
Qed.

(** X8.  The audio tools are used for nothing but the analysis of a ".wav"
    input: in every run, [read_wav] is called only in an even mode, only on
    the input file, and only when its name ends (in any letter case) in
    ".wav" and not in ".f0"; and [extract_f0] is called only on the waveform
    and rate that [read_wav] returned for that file. *)
Theorem wav_tools_only_for_wav_analysis (tk : toolkit) (w : world) (a : args) :
  (forall p, In (Call_read_wav p) (effects (run tk w a)) ->
             (mode a mod 2 = 0)%Z
             /\ endswith (lower (input_file a)) ".f0" = false
             /\ endswith (lower (input_file a)) ".wav" = true
             /\ p = input_file a)
  /\ (forall wav_form rate,
        In (Call_extract_f0 wav_form rate) (effects (run tk w a)) ->
        (mode a mod 2 = 0)%Z /\ read_wav tk (input_file a) = Ok (rate, wav_form)).
Proof.
  assert (H : always (fun e => match e with
                               | Call_read_wav _ | Call_extract_f0 _ _ =>
                                   (mode a mod 2 = 0)%Z
                                   /\ wav_tools_in_order tk (input_file a) e
                               | _ => True
                               end) (run tk w a)).
  { unfold run, run_configured.
    apply always_bind;
      [unfold load_configuration; always_tac; exact I | intros configuration].
    apply always_bind.
    - destruct (mode a mod 2 =? 0)%Z eqn:E; [| apply always_ret].
      apply Z.eqb_eq in E.
      apply always_bind; [| intros; apply always_ret].
      unfold analysis. apply always_bind.
      + eapply always_impl; [| apply load_f0_wav_tools].
        intros [] He; auto.
      + intros raw. unfold decompose_and_save. always_tac; exact I.
    - intros st. unfold synthesis, save_reconstruction, plot_results.
      always_tac; exact I. }
  split.
  - intros p Hin. apply (always_In _ _ _ H) in Hin. simpl in Hin. tauto.
  - intros wf rate Hin. apply (always_In _ _ _ H) in Hin. exact Hin.
Qed.

Lemma wav_tools_only_for_wav_analysis_witness :
  (0 mod 2 = 0)%Z
  /\ endswith (lower "in/b.WAV") ".f0" = false
  /\ endswith (lower "in/b.WAV") ".wav" = true
  /\ "in/b.WAV" = "in/b.WAV".
Proof.
  apply (proj1 (wav_tools_only_for_wav_analysis demo_tk demo_world
                  (demo_args 0 false "in/b.WAV")) "in/b.WAV").
  vm_compute. right; left; reflexivity.
Defined.

(** X9.  A failure before the pre-processed signal is written leaves nothing
    behind: when [load_f0] raises, when [process] raises, when under the
    plot flag one of the plotting calls of lines 133-135 raises, or when the
    .interp file cannot be written, the run fails with that exception, no
    file has been written and no transform has been called. *)
Theorem failure_before_interp_writes_nothing
        (tk : toolkit) (w : world) (a : args) (configuration : pydict) (e : exn) :
  (mode a mod 2 = 0)%Z ->
  ((exists l0, load_f0 tk w (input_file a) = (Raise e, l0))
   \/ (exists raw l0, load_f0 tk w (input_file a) = (Ok raw, l0)
                      /\ process tk raw = Raise e)
   \/ (exists raw l0 f0 l,
         load_f0 tk w (input_file a) = (Ok raw, l0)
         /\ process tk raw = Ok f0
         /\ plot a = true
         /\ (pylab w (Title "F0 preprocessing and interpolation") ;;;
             pylab w (Plot f0) ;;; pylab w (PlotRaw raw)) = (Raise e, l))
   \/ (exists raw l0 f0, load_f0 tk w (input_file a) = (Ok raw, l0)
                         /\ process tk raw = Ok f0
                         /\ (plot a = true -> pylab_returns w)
                         /\ writable w (output_base a ++ ".interp")%string = false
                         /\ e = OSError (output_base a ++ ".interp")%string)) ->
  outcome (run_configured tk w a configuration) = Raise e
  /\ written (effects (run_configured tk w a configuration)) = []
  /\ transforms (effects (run_configured tk w a configuration)) = [].
Proof.
  intros Hm H.
  assert (Hr : exists l, written l = [] /\ transforms l = []
                         /\ analysis tk w a configuration (output_base a) = (Raise e, l)).
  { destruct H as [(l0 & Hl) | [(raw & l0 & Hl & Hp)
                    | [(raw & l0 & f0 & l & Hl & Hp & Hplot & Hb)
                      | (raw & l0 & f0 & Hl & Hp & Hpl & Hw & ->)]]];
      destruct (load_f0_written _ _ _ _ _ Hl) as [Hw0 Ht0].
    - exists l0. repeat split; try assumption.
      unfold analysis. rewrite Hl. reflexivity.
    - exists (l0 ++ [Call_process raw]). rewrite written_app, transforms_app, Hw0, Ht0.
      repeat split. unfold analysis. rewrite Hl, bind_pair, Hp, call_Raise. reflexivity.
    - assert (Hq : written l = [] /\ transforms l = []).
      { apply (quiet_effects _ _ _ Hb). always_tac; split; reflexivity. }
      exists (l0 ++ [Call_process raw] ++ l).
      rewrite !written_app, !transforms_app, Hw0, Ht0, (proj1 Hq), (proj2 Hq).
      split; [reflexivity |]. split; [reflexivity |].
      unfold analysis. rewrite Hl, bind_pair, Hp, call_Ok, bind_pair, Hplot.
      cbn [when]. rewrite Hb. reflexivity.
    - exists (l0 ++ [Call_process raw]
                 ++ (if plot a
                     then [Pylab (Title "F0 preprocessing and interpolation");
                           Pylab (Plot f0); Pylab (PlotRaw raw)]
                     else [])).
      rewrite !written_app, !transforms_app, Hw0, Ht0.
      split; [destruct (plot a); reflexivity |].
      split; [destruct (plot a); reflexivity |].
      unfold analysis. rewrite Hl, bind_pair, Hp, call_Ok, bind_pair.
      unfold savetxt at 1. rewrite Hw.
      destruct (plot a); [| reflexivity].
      cbn [when]. rewrite (analysis_plot_returns w raw f0 (Hpl eq_refl)). reflexivity. }
  destruct Hr as (l & Hw & Ht & Ha).
  rewrite (run_configured_analysis_raise _ _ _ _ _ _ Hm Ha). auto.
Qed.

Lemma failure_before_interp_writes_nothing_witness :
  (outcome (run_configured demo_tk demo_world (demo_args 0 false "in/missing.f0") [])
   = Raise (OSError "in/missing.f0")
   /\ written (effects (run_configured demo_tk demo_world
                          (demo_args 0 false "in/missing.f0") [])) = []
   /\ transforms (effects (run_configured demo_tk demo_world
                             (demo_args 0 false "in/missing.f0") [])) = [])
  /\ (outcome (run_configured demo_tk headless_world (demo_args 0 true "in/a.f0")
                 [("wavelet", wavelet_section)])
      = Raise (DisplayError "no display name")
      /\ written (effects (run_configured demo_tk headless_world
                             (demo_args 0 true "in/a.f0")
                             [("wavelet", wavelet_section)])) = []
      /\ transforms (effects (run_configured demo_tk headless_world
                                (demo_args 0 true "in/a.f0")
                                [("wavelet", wavelet_section)])) = []).
Proof.
  split.
  - apply (failure_before_interp_writes_nothing demo_tk demo_world
             (demo_args 0 false "in/missing.f0") [] (OSError "in/missing.f0") eq_refl).
    left. exists [Call_load_f0 "in/missing.f0"]. reflexivity.
  - apply (failure_before_interp_writes_nothing demo_tk headless_world
             (demo_args 0 true "in/a.f0") [("wavelet", wavelet_section)]
             (DisplayError "no display name") eq_refl).
    right; right; left.
    exists [[90]; [120]; [90]]%Q, [Call_load_f0 "in/a.f0"], [90; 120; 90]%Q,
      [Pylab (Title "F0 preprocessing and interpolation")].
    repeat split; reflexivity.
Defined.

(** ** The matrix read by the synthesis *)

Lemma concat_chunk (n : nat) :
  (0 < n)%nat ->
  forall fuel l, (List.length l <= fuel)%nat -> List.concat (chunk fuel n l) = l.
Proof.
  intros Hn; induction fuel as [| fuel IH]; intros l Hl.
  - destruct l; [reflexivity | simpl in Hl; lia].
  - destruct l as [| x l']; [reflexivity |].
    cbn [chunk List.concat]. rewrite IH.
    + apply firstn_skipn.
    + rewrite length_skipn. cbn [List.length] in Hl |- *. lia.
Qed.

Lemma chunk_rectangular (n : nat) :
  (0 < n)%nat ->
  forall fuel l, (List.length l <= fuel)%nat -> (List.length l mod n = 0)%nat ->
                 rectangular n (chunk fuel n l).
Proof.
  intros Hn; induction fuel as [| fuel IH]; intros l Hl Hmod.
  - constructor.
  - destruct l as [| x l']; [constructor |].
    cbn [chunk].
    apply Nat.Div0.mod_divides in Hmod. destruct Hmod as [c Hc].
    destruct c as [| c]; [rewrite Nat.mul_0_r in Hc; discriminate Hc |].
    constructor.
    + rewrite length_firstn. rewrite Hc. nia.
    + apply IH.
      * rewrite length_skipn. cbn [List.length] in Hl |- *. lia.
      * rewrite length_skipn, Hc.
        replace (n * S c - n)%nat with (c * n)%nat by nia.
        apply Nat.Div0.mod_mul.
Qed.

(** X10.  In synthesis-only mode the input is regrouped by five whatever its own
    layout: a file whose number of values is not a multiple of five is
    refused with ValueError before anything is done, and any other file is
    accepted, its values taken in reading order as lines of five values
    each, however many values a line of the file holds; the synthesis
    receives the five columns of these lines. *)
Theorem synthesis_only_regroups_by_five
        (tk : toolkit) (w : world) (a : args) (configuration : pydict) (m : matrix) :
  mode a = 1%Z ->
  load_configuration w a = (Ok configuration, []) ->
  loadtxt w (input_file a) = Ok m ->
  ((List.length (List.concat m) mod 5 <> 0)%nat ->
   run tk w a = (Raise (ValueError "cannot reshape array"), []))
  /\ ((List.length (List.concat m) mod 5 = 0)%nat ->
      exists r,
        List.concat r = List.concat m
        /\ rectangular 5 r
        /\ (5 * List.length r = List.length (List.concat m))%nat
        /\ List.length (transpose_n 5 r) = 5%nat
        /\ rectangular (List.length r) (transpose_n 5 r)
        /\ In (Call_cwt_synthesis (transpose_n 5 r) (mean_f0 a)) (effects (run tk w a))
        /\ (forall rows mean,
              In (Call_cwt_synthesis rows mean) (effects (run tk w a)) ->
              rows = transpose_n 5 r /\ mean = mean_f0 a)).
Proof.
  intros Hm Hc Hl.
  assert (E2 : (mode a mod 2 =? 0)%Z = false) by (rewrite Hm; reflexivity).
  rewrite (odd_run_structure tk w a configuration Hc E2), Hm.
  change (1 <=? 1)%Z with true. cbn [orb when].
  unfold synthesis. rewrite Hm, Hl. change (1 =? 1)%Z with true. cbn iota.
  split.
  - intros Hne. apply Nat.eqb_neq in Hne.
    unfold lift at 1. rewrite bind_pair, prepend_nil.
    unfold reshape_cols. rewrite Hne. reflexivity.
  - intros He.
    assert (Hrect : rectangular 5 (chunk (List.length (List.concat m)) 5 (List.concat m)))
      by (apply chunk_rectangular; [lia | lia | exact He]).
    assert (Hcat : List.concat (chunk (List.length (List.concat m)) 5 (List.concat m))
                   = List.concat m) by (apply concat_chunk; lia).
    apply Nat.eqb_eq in He.
    exists (chunk (List.length (List.concat m)) 5 (List.concat m)).
    split; [exact Hcat |]. split; [exact Hrect |].
    split; [pose proof (length_concat_rectangular 5 _ Hrect) as Hlen;
            rewrite Hcat in Hlen; lia |].
    split; [reflexivity |].
    split; [apply rectangular_transpose_n |].
    split.
    + unfold lift at 1. rewrite bind_pair, prepend_nil.
      unfold reshape_cols. rewrite He.
      unfold lift at 1. rewrite bind_pair, prepend_nil, bind_ret_l.
      do 4 apply in_effects_bind_l. left; reflexivity.
    + intros rows mean Hin.
      unfold lift at 1 in Hin. rewrite bind_pair, prepend_nil in Hin.
      unfold reshape_cols in Hin. rewrite He in Hin.
      unfold lift at 1 in Hin. rewrite bind_pair, prepend_nil, bind_ret_l in Hin.
      match type of Hin with
      | In _ (effects ?run) =>
          assert (Hal : always (fun e => match e with
                                         | Call_cwt_synthesis rows' mean' =>
                                             rows' = transpose_n 5
                                                       (chunk (List.length (List.concat m)) 5
                                                          (List.concat m))
                                             /\ mean' = mean_f0 a
                                         | _ => True
                                         end) run)
      end.
      { unfold save_reconstruction, plot_results.
        always_tac; solve [exact I | split; reflexivity]. }
      apply (always_In _ _ _ Hal) in Hin. exact Hin.
Qed.

Lemma synthesis_only_regroups_by_five_witness :
  run demo_tk demo_world (demo_args 1 false "in/two.cwt")
  = (Raise (ValueError "cannot reshape array"), [])
  /\ In (Call_cwt_synthesis [[1]; [2]; [3]; [4]; [5]]%Q 100%Q)
        (effects (run demo_tk demo_world (demo_args 1 false "in/one.cwt"))).
Proof.
  split.
  - apply (proj1 (synthesis_only_regroups_by_five demo_tk demo_world
                    (demo_args 1 false "in/two.cwt") [("wavelet", wavelet_section)]
                    [[1; 2]; [3; 4]]%Q eq_refl eq_refl eq_refl)).
    simpl; discriminate.
  - destruct (proj2 (synthesis_only_regroups_by_five demo_tk demo_world
                       (demo_args 1 false "in/one.cwt") [("wavelet", wavelet_section)]
                       [[1]; [2]; [3]; [4]; [5]]%Q eq_refl eq_refl eq_refl) eq_refl)
      as (r & Hcat & Hrect & Hlen & _ & _ & Hin & _).
    destruct r as [| row r]; [discriminate Hcat |].
    destruct r as [| row' r]; [| cbn [List.length] in Hlen; cbn in Hlen; lia].
    cbn [List.concat] in Hcat. rewrite app_nil_r in Hcat. subst row.
    exact Hin.
Defined.

(** ** From the analysis to the synthesis: the .cwt file *)

Lemma transpose_n_map (f : Q -> Q) (n : nat) (m : matrix) :
  rectangular n m ->
  transpose_n n (map (map f) m) = map (map f) (transpose_n n m).
Proof.
  intros Hrect. unfold transpose_n. rewrite map_map.
  apply map_ext_in. intros i Hi. apply in_seq in Hi.
  rewrite !map_map. apply map_ext_in. intros row Hrow.
  apply nth_map_in_range.
  rewrite (proj1 (Forall_forall _ _) Hrect row Hrow). lia.
Qed.

Lemma transpose_n_involutive (n : nat) (m : matrix) :
  rectangular n m ->
  transpose_n (List.length m) (transpose_n n m) = m.
Proof.
  intros Hrect. unfold transpose_n.
  transitivity (map (fun j => nth j m []) (seq 0 (List.length m))).
  - apply map_ext_in. intros j Hj. apply in_seq in Hj.
    rewrite map_map.
    assert (Hin : In (nth j m []) m) by (apply nth_In; lia).
    pose proof (proj1 (Forall_forall _ _) Hrect _ Hin) as Hlen. simpl in Hlen.
    transitivity (map (fun i => nth i (nth j m []) 0%Q) (seq 0 n)).
    + apply map_ext. intros i. apply nth_map_column.
    + rewrite <- Hlen.
      rewrite (map_seq_nth (fun v => v) 0%Q (nth j m [])). apply map_id.
  - rewrite (map_seq_nth (fun row => row) [] m). apply map_id.
Qed.

Lemma reshape_concat_five (rows : matrix) :
  rectangular 5 rows -> reshape_cols 5 (List.concat rows) = Ok rows.
Proof.
  intros Hrect. unfold reshape_cols.
  rewrite (length_concat_rectangular 5 rows Hrect), Nat.Div0.mod_mul.
  cbn [Nat.eqb]. rewrite chunk_concat; [reflexivity | lia | exact Hrect | lia].
Qed.

Lemma loadtxt_one_per_line (w : world) (path : string) (data : list Q) :
  fs w path = Some (one_per_line data) ->
  loadtxt w path = Ok (map (fun v => [v]) data)
  /\ List.concat (map (fun v => [v]) data) = data.
Proof.
  intros Hfs. split.
  - unfold loadtxt, one_per_line in *. rewrite Hfs.
    rewrite filter_all by (apply Forall_forall; intros r Hr;
                           apply in_map_iff in Hr; destruct Hr as (v & <- & _); reflexivity).
    assert (H : forallb (fun r => (List.length r =? ncols (map (fun v => [v]) data))%nat)
                        (map (fun v : Q => [v]) data) = true).
    { apply forallb_forall. intros r Hr.
      destruct data as [| v data]; [contradiction |].
      apply in_map_iff in Hr. destruct Hr as (v' & <- & _). reflexivity. }
    rewrite H. reflexivity.
  - clear Hfs. induction data as [| v data IH]; [reflexivity |].
    simpl. rewrite IH. reflexivity.
Qed.

(** The five bands [bands], written the way line 154 writes them and read
    back the way line 171 reads them, come out as they went in, each value
    rounded to six decimals. *)
Lemma cwt_data_reads_back (w : world) (path : string) (bands : matrix) (n : nat) :
  List.length bands = 5%nat ->
  rectangular n bands ->
  fs w path = Some (one_per_line (map fmt_f (List.concat (transpose bands)))) ->
  exists m r,
    loadtxt w path = Ok m
    /\ reshape_cols 5 (List.concat m) = Ok r
    /\ transpose_n 5 r = map (map fmt_f) bands.
Proof.
  intros Hlen Hrect Hfs.
  destruct (loadtxt_one_per_line w path _ Hfs) as [Hl Hc].
  assert (Hn : ncols bands = n).
  { destruct bands as [| row bands]; [discriminate Hlen |].
    inversion Hrect; assumption. }
  assert (Hdata : map fmt_f (List.concat (transpose bands))
                  = List.concat (transpose_n n (map (map fmt_f) bands))).
  { unfold transpose. rewrite Hn, concat_map, transpose_n_map by exact Hrect.
    reflexivity. }
  assert (Hrect' : rectangular n (map (map fmt_f) bands)).
  { unfold rectangular in *. apply Forall_forall. intros r Hr.
    apply in_map_iff in Hr. destruct Hr as (r0 & <- & Hr0).
    rewrite length_map. exact (proj1 (Forall_forall _ _) Hrect r0 Hr0). }
  exists (map (fun v => [v]) (map fmt_f (List.concat (transpose bands)))),
         (transpose_n n (map (map fmt_f) bands)).
  split; [exact Hl |]. split.
  - rewrite Hc, Hdata. apply reshape_concat_five.
    replace 5%nat with (List.length (map (map fmt_f) bands))
      by (rewrite length_map; exact Hlen).
    apply rectangular_transpose_n.
  - replace 5%nat with (List.length (map (map fmt_f) bands))
      by (rewrite length_map; exact Hlen).
    apply transpose_n_involutive. exact Hrect'.
Qed.

(** X11.  The .cwt file of an analysis is the input of a synthesis-only run.
    When the combination returns five rows of equal length, every
    successful run that performs the analysis writes a .cwt file such that
    any synthesis-only run (mode 1) given a file of the same content hands
    the synthesis those same five bands, each value rounded to the six
    decimals of the file, with the mean given on that command line. *)
Theorem cwt_file_round_trip (tk : toolkit) (w : world) (a : args) (l : list effect) :
  (forall full bands, combine_scales tk full slices = Ok bands ->
                      List.length bands = 5%nat /\ exists n, rectangular n bands) ->
  (mode a mod 2 = 0)%Z ->
  run tk w a = (Ok tt, l) ->
  exists full bands data,
    In (Call_combine_scales full slices) l
    /\ combine_scales tk full slices = Ok bands
    /\ In (Savetxt CwtMatrix (output_base a ++ ".cwt")%string data) l
    /\ forall w' a' configuration,
         mode a' = 1%Z ->
         load_configuration w' a' = (Ok configuration, []) ->
         fs w' (input_file a') = Some (one_per_line data) ->
         In (Call_cwt_synthesis (map (map fmt_f) bands) (mean_f0 a'))
            (effects (run tk w' a')).
Proof.
  intros Hshape Hm H.
  destruct (run_even_Ok_inv _ _ _ _ _ H Hm)
    as (configuration & bands & f0 & la & lt & Hc & Ha & -> & _ & _).
  destruct (analysis_Ok_inv _ _ _ _ _ _ _ _ Ha)
    as (raw & p & full & l0 & Hp & Hraw & Hq & Hf & Hb & Hw0 & Ht0 & ->).
  exists full, bands, (map fmt_f (List.concat (transpose bands))).
  split; [| split; [exact Hb | split]].
  - apply in_or_app; left. apply in_or_app; right. right; right; left; reflexivity.
  - apply in_or_app; left. apply in_or_app; right. right; right; right; left; reflexivity.
  - intros w' a' configuration' Hm' Hc' Hfs.
    destruct (Hshape full bands Hb) as [Hlen [n Hrect]].
    destruct (cwt_data_reads_back w' _ bands n Hlen Hrect Hfs) as (m & r & Hl & Hr & Ht).
    assert (E2 : (mode a' mod 2 =? 0)%Z = false) by (rewrite Hm'; reflexivity).
    rewrite (odd_run_structure tk w' a' configuration' Hc' E2), Hm'.
    change (1 <=? 1)%Z with true. cbn [orb when].
    unfold synthesis. rewrite Hm', Hl. change (1 =? 1)%Z with true. cbn iota.
    unfold lift at 1. rewrite bind_pair, prepend_nil.
    rewrite Hr. unfold lift at 1. rewrite bind_pair, prepend_nil, bind_ret_l, Ht.
    do 4 apply in_effects_bind_l. left; reflexivity.
Qed.

Lemma spec_combine_scales_shape (full bands : matrix) :
  spec_combine_scales full slices = Ok bands ->
  List.length bands = 5%nat /\ exists n, rectangular n bands.
Proof.
  unfold spec_combine_scales.
  destruct (forallb _ slices); [| discriminate].
  intros H; injection H as <-.
  split; [reflexivity |]. exists (ncols full).
  unfold rectangular.
  repeat (constructor;
          [unfold transpose_n; rewrite !length_map, length_seq; reflexivity |]).
  constructor.
Qed.

Lemma cwt_file_round_trip_witness :
  exists full bands data,
    In (Call_combine_scales full slices)
       (effects (run demo_tk demo_world (demo_args 0 false "in/a.f0")))
    /\ combine_scales demo_tk full slices = Ok bands
    /\ In (Savetxt CwtMatrix "out/a.f0.cwt" data)
          (effects (run demo_tk demo_world (demo_args 0 false "in/a.f0")))
    /\ In (Call_cwt_synthesis (map (map fmt_f) bands) 100%Q)
          (effects (run demo_tk (demo_world_with data) (demo_args 1 false "out/a.f0.cwt"))).
Proof.
  destruct (cwt_file_round_trip demo_tk demo_world (demo_args 0 false "in/a.f0")
              (effects (run demo_tk demo_world (demo_args 0 false "in/a.f0")))
              spec_combine_scales_shape eq_refl eq_refl)
    as (full & bands & data & H1 & H2 & H3 & H4).
  exists full, bands, data.
  split; [exact H1 |]. split; [exact H2 |]. split; [exact H3 |].
  apply (H4 (demo_world_with data) (demo_args 1 false "out/a.f0.cwt")
            [("wavelet", wavelet_section)]); reflexivity.
Defined.

(** ** The paths of the files written *)

Lemma string_length_append (a b : string) :
  String.length (a ++ b) = (String.length a + String.length b)%nat.
Proof. induction a as [| c a IH]; simpl; [| rewrite IH]; reflexivity. Qed.

Lemma string_append_assoc (a b c : string) :
  ((a ++ b) ++ c)%string = (a ++ (b ++ c))%string.
Proof. induction a as [| x a IH]; simpl; [| rewrite IH]; reflexivity. Qed.

Lemma no_slash_append (a b : string) :
  no_slash (a ++ b) = no_slash a && no_slash b.
Proof.
  induction a as [| c a IH]; simpl; [reflexivity |].
  rewrite IH, andb_assoc. reflexivity.
Qed.

Lemma rsplit_no_slash (t : string) :
  no_slash t = true -> rsplit_slash t = (EmptyString, t).
Proof.
  induction t as [| c t IH]; simpl; [reflexivity |].
  intros H. apply andb_true_iff in H. destruct H as [Hc Ht].
  rewrite (IH Ht). simpl. apply negb_true_iff in Hc. rewrite Hc. reflexivity.
Qed.

Lemma rsplit_slash_app (x t : string) :
  no_slash t = true ->
  rsplit_slash (x ++ t)
  = (fst (rsplit_slash x), (snd (rsplit_slash x) ++ t)%string).
Proof.
  intros Ht. induction x as [| c x IH].
  - simpl. apply rsplit_no_slash, Ht.
  - cbn [append rsplit_slash]. rewrite IH.
    destruct (rsplit_slash x) as [h tl]. cbn [fst snd].
    destruct (negb (is_empty h)); [reflexivity |].
    destruct (Ascii.eqb c slash); reflexivity.
Qed.

Lemma basename_no_slash (p : string) : no_slash (basename p) = true.
Proof.
  unfold basename. induction p as [| c p IH]; [reflexivity |].
  cbn [rsplit_slash]. destruct (rsplit_slash p) as [h tl]. cbn [snd] in IH.
  destruct (negb (is_empty h)); [exact IH |].
  destruct (Ascii.eqb c slash) eqn:E; [exact IH |].
  cbn [snd no_slash]. rewrite E, IH. reflexivity.
Qed.

Lemma path_join_ends_with (d b : string) : exists pre, path_join d b = (pre ++ b)%string.
Proof.
  unfold path_join. destruct (startswith b "/"); [exists EmptyString; reflexivity |].
  destruct (is_empty d || endswith d "/"); [exists d; reflexivity |].
  exists (d ++ "/")%string. rewrite string_append_assoc. reflexivity.
Qed.

(** An output name built from the base name of [p] and a suffix is never
    [p] itself. *)
Lemma output_path_not_input (d p suffix : string) :
  no_slash suffix = true -> suffix <> EmptyString ->
  (path_join d (basename p) ++ suffix)%string <> p.
Proof.
  intros Hs Hne E.
  destruct (path_join_ends_with d (basename p)) as [pre Hpre].
  rewrite Hpre, string_append_assoc in E.
  assert (Hb : no_slash (basename p ++ suffix) = true)
    by (rewrite no_slash_append, basename_no_slash, Hs; reflexivity).
  apply (f_equal basename) in E. unfold basename at 1 in E.
  rewrite (rsplit_slash_app pre _ Hb) in E. cbn [snd] in E.
  apply (f_equal String.length) in E.
  rewrite !string_length_append in E.
  destruct suffix; [contradiction | simpl in E; lia].
Qed.

Lemma no_slash_uint (d : Decimal.uint) : no_slash (NilEmpty.string_of_uint d) = true.
Proof. induction d; simpl; auto. Qed.

Lemma no_slash_decimal (n : nat) : no_slash (decimal n) = true.
Proof. apply no_slash_uint. Qed.

(** X12.  No run that performs the analysis, and none in a mode other than 1,
    writes over its input file, whatever the output directory: the names of
    the artifacts are the base name of the input followed by
    ".interp", ".cwt", ".cwt.<i>" or "_rec.f0".  (In mode 1 the file written
    is the one named on the command line, which may be the input.) *)
Theorem input_file_not_overwritten (tk : toolkit) (w : world) (a : args) :
  mode a <> 1%Z ->
  forall k path data,
    In (Savetxt k path data) (effects (run tk w a)) -> path <> input_file a.
Proof.
  intros Hne k path data Hin. apply Z.eqb_neq in Hne.
  apply (always_In (not_written_to (input_file a))) in Hin; [exact Hin |].
  unfold run, run_configured, save_reconstruction. rewrite Hne. cbv beta iota zeta.
  unfold analysis, decompose_and_save, synthesis, plot_results, load_f0,
    load_configuration.
  always_tac; try exact I; unfold not_written_to, output_base;
    apply output_path_not_input; try discriminate; try reflexivity.
  cbn [no_slash Ascii.eqb Bool.eqb slash negb andb]. apply no_slash_decimal.
Qed.

Lemma input_file_not_overwritten_witness :
  "out/a.f0_rec.f0" <> input_file (demo_args 2 false "in/a.f0").
Proof.
  apply (input_file_not_overwritten demo_tk demo_world (demo_args 2 false "in/a.f0")
           ltac:(discriminate) Reconstruction "out/a.f0_rec.f0"
           (map fmt_f [90; 120; 90]%Q)).
  vm_compute. do 12 right. left. reflexivity.
Defined.

Lemma written_paths_app (l1 l2 : list effect) :
  written_paths (l1 ++ l2) = written_paths l1 ++ written_paths l2.
Proof.
  induction l1 as [| e l1 IH]; [reflexivity |].
  destruct e; simpl; rewrite IH; reflexivity.
Qed.

Lemma written_paths_silent (l : list effect) : written l = [] -> written_paths l = [].
Proof.
  unfold written. induction l as [| e l IH]; [reflexivity |].
  destruct e; simpl; try exact IH. discriminate.
Qed.

Lemma written_paths_band_files (out : string) (bands : matrix) :
  forall i,
    written_paths (band_files out i bands)
    = map (fun j => (out ++ ".cwt." ++ decimal (j + 1))%string)
          (seq i (List.length bands)).
Proof.
  unfold band_files. induction bands as [| row bands IH]; intros i; [reflexivity |].
  cbn [enumerate_from map written_paths List.length seq fst snd].
  rewrite IH. reflexivity.
Qed.

Lemma decimal_injective (n m : nat) : decimal n = decimal m -> n = m.
Proof.
  unfold decimal. intros H.
  apply (f_equal NilEmpty.uint_of_string) in H. rewrite !NilEmpty.usu in H.
  injection H as H. apply (f_equal Nat.of_uint) in H.
  rewrite !Unsigned.of_to in H. exact H.
Qed.

Lemma string_append_cancel_l (a b c : string) :
  (a ++ b)%string = (a ++ c)%string -> b = c.
Proof.
  induction a as [| x a IH]; simpl; [auto |].
  intros H; injection H as H. apply IH, H.
Qed.

Lemma NoDup_map_injective {A B : Type} (f : A -> B) (l : list A) :
  (forall x y, f x = f y -> x = y) -> NoDup l -> NoDup (map f l).
Proof.
  intros Hf; induction 1 as [| x l Hx _ IH]; simpl; constructor; [| exact IH].
  intros Hin. apply in_map_iff in Hin. destruct Hin as (y & E & Hy).
  apply Hf in E. subst y. contradiction.
Qed.

(** The suffixes of the artifacts of an analysis with [k] bands, followed
    by [tail]. *)
Lemma artifact_suffixes_distinct (k : nat) (tail : list string) :
  tail = [] \/ tail = ["_rec.f0"] ->
  NoDup (".interp" :: ".cwt"
         :: map (fun j => (".cwt." ++ decimal (j + 1))%string) (seq 0 k) ++ tail).
Proof.
  intros Htail.
  assert (Hbands : NoDup (map (fun j => (".cwt." ++ decimal (j + 1))%string) (seq 0 k))).
  { apply NoDup_map_injective; [| apply seq_NoDup].
    intros x y E. injection E as E. apply decimal_injective in E. lia. }
  assert (Hrest : NoDup (map (fun j => (".cwt." ++ decimal (j + 1))%string) (seq 0 k)
                         ++ tail)).
  { apply NoDup_app; [exact Hbands | |].
    - destruct Htail as [-> | ->]; repeat constructor; intros [].
    - intros s Hs Ht. apply in_map_iff in Hs. destruct Hs as (j & <- & _).
      destruct Htail as [-> | ->]; [destruct Ht |].
      destruct Ht as [Ht | []]. discriminate Ht. }
  constructor; [| constructor; [| exact Hrest]].
  - intros [H | H]; [discriminate H |].
    apply in_app_or in H. destruct H as [H | H].
    + apply in_map_iff in H. destruct H as (j & E & _). discriminate E.
    + destruct Htail as [-> | ->]; [destruct H | destruct H as [H | []]; discriminate H].
  - intros H. apply in_app_or in H. destruct H as [H | H].
    + apply in_map_iff in H. destruct H as (j & E & _). discriminate E.
    + destruct Htail as [-> | ->]; [destruct H | destruct H as [H | []]; discriminate H].
Qed.

(** X13.  The files that a successful run writes all have different names: no
    artifact of a run replaces another artifact of the same run. *)
Theorem written_paths_distinct (tk : toolkit) (w : world) (a : args) (l : list effect) :
  run tk w a = (Ok tt, l) -> NoDup (written_paths l).
Proof.
  intros H.
  destruct (Z.eq_dec (mode a mod 2) 0) as [Hm | Hm].
  - destruct (run_even_Ok_inv _ _ _ _ _ H Hm)
      as (configuration & bands & f0 & la & lt & Hc & Ha & -> & Hge & Hlt).
    destruct (analysis_Ok_inv _ _ _ _ _ _ _ _ Ha)
      as (raw & p & full & l0 & Hp & Hraw & Hq & Hf & Hb & Hw0 & Ht0 & ->).
    assert (Htail : exists tail,
               (tail = [] \/ tail = ["_rec.f0"])
               /\ written_paths lt = map (append (output_base a)) tail).
    { destruct (Z_lt_le_dec (mode a) 1) as [Hl | Hl].
      - exists []. split; [left; reflexivity |].
        apply written_paths_silent, Hlt, Hl.
      - destruct (Hge Hl) as (rec & _ & _ & Hw).
        exists ["_rec.f0"]. split; [right; reflexivity |].
        assert (E : written_paths lt = written_paths (written lt)).
        { clear. unfold written. induction lt as [| e lt IH]; [reflexivity |].
          destruct e; simpl; rewrite <- ?IH; reflexivity. }
        rewrite E, Hw. reflexivity. }
    destruct Htail as (tail & Htail & Hpaths).
    rewrite !written_paths_app, (written_paths_silent _ Hw0), Hpaths.
    cbn [written_paths app]. rewrite written_paths_band_files.
    replace ((output_base a ++ ".interp")%string
             :: (output_base a ++ ".cwt")%string
             :: map (fun j => (output_base a ++ ".cwt." ++ decimal (j + 1))%string)
                    (seq 0 (List.length bands))
             ++ map (append (output_base a)) tail)
      with (map (append (output_base a))
                (".interp" :: ".cwt"
                 :: map (fun j => (".cwt." ++ decimal (j + 1))%string)
                        (seq 0 (List.length bands)) ++ tail)).
    + apply NoDup_map_injective;
        [intros x y; apply string_append_cancel_l
        | apply artifact_suffixes_distinct, Htail].
    + cbn [map]. rewrite map_app, map_map. reflexivity.
  - pose proof (odd_run_writes_at_most_one tk w a (proj2 (Z.eqb_neq _ _) Hm)) as Hlen.
    rewrite H in Hlen. cbn [effects snd] in Hlen.
    assert (E : written_paths l = written_paths (written l)).
    { clear. unfold written. induction l as [| e l IH]; [reflexivity |].
      destruct e; simpl; rewrite <- ?IH; reflexivity. }
    rewrite E. destruct (written l) as [| e [| e' l']].
    + constructor.
    + destruct e; simpl; repeat constructor; intros [].
    + simpl in Hlen. lia.
Qed.

Lemma written_paths_distinct_witness :
  NoDup (written_paths (effects (run demo_tk demo_world (demo_args 2 false "in/a.f0")))).
Proof.
  apply (written_paths_distinct demo_tk demo_world (demo_args 2 false "in/a.f0")).
  reflexivity.
Defined.

(** ** Plotting after the files are written *)

(** X15.  With the plot flag, a synthesis-only run on an input without values
    writes its (empty) reconstruction and then fails while drawing: when
    the plotting calls return, [max(rec)] of line 200 raises ValueError on
    the empty reconstruction, and otherwise the plotting call that fails
    raises.  In every case the file is there although the run ends with an
    exception. *)
Theorem plot_of_empty_reconstruction_fails_after_write
        (tk : toolkit) (w : world) (a : args) (configuration : pydict)
        (m : matrix) (path : string) :
  mode a = 1%Z ->
  plot a = true ->
  load_configuration w a = (Ok configuration, []) ->
  loadtxt w (input_file a) = Ok m ->
  List.concat m = [] ->
  cwt_synthesis tk (transpose_n 5 []) (mean_f0 a) = Ok [] ->
  output_file a = Some path ->
  writable w path = true ->
  (exists e l, run tk w a = (Raise e, l)
               /\ written l = [Savetxt Reconstruction path []])
  /\ (pylab_returns w ->
      run tk w a
      = (Raise (ValueError "max() arg is an empty sequence"),
         [Call_cwt_synthesis (transpose_n 5 []) (mean_f0 a);
          Savetxt Reconstruction path [];
          Pylab Figure;
          Pylab (Title "CWT decomposition to 5 scales and reconstructed signal");
          Pylab (Plot [])])).
Proof.
  intros Hm Hp Hc Hl He Hs Ho Hw.
  assert (E2 : (mode a mod 2 =? 0)%Z = false) by (rewrite Hm; reflexivity).
  assert (Hrun : run tk w a
                 = prepend [Call_cwt_synthesis (transpose_n 5 []) (mean_f0 a);
                            Savetxt Reconstruction path []]
                     (plot_results w a (Some (transpose_n 5 [])) None (Some []))).
  { rewrite (odd_run_structure tk w a configuration Hc E2), Hm, Hp.
    change (1 <=? 1)%Z with true. cbn [orb when].
    unfold synthesis. rewrite Hm, Hl. change (1 =? 1)%Z with true. cbn iota.
    unfold lift at 1. rewrite bind_pair, prepend_nil, He.
    change (reshape_cols 5 []) with (@Ok matrix []).
    unfold lift at 1. rewrite bind_pair, prepend_nil, bind_ret_l.
    rewrite Hs, call_Ok, bind_pair, bind_prepend, bind_ret_l, bind_prepend, bind_ret_l.
    cbn [fst snd].
    unfold save_reconstruction. rewrite Hm, Ho. change (1 =? 1)%Z with true. cbn iota.
    unfold savetxt. rewrite Hw. unfold emit. rewrite bind_pair, prepend_prepend.
    reflexivity. }
  rewrite Hrun. split.
  - assert (Hr : exists e l, plot_results w a (Some (transpose_n 5 [])) None (Some [])
                             = (Raise e, l)).
    { unfold plot_results, pylab. rewrite Hm.
      destruct (pylab_raises w Figure); [eexists; eexists; reflexivity |].
      destruct (pylab_raises w
                  (Title "CWT decomposition to 5 scales and reconstructed signal"));
        [eexists; eexists; reflexivity |].
      cbn. destruct (pylab_raises w (Plot [])); eexists; eexists; reflexivity. }
    destruct Hr as (e & l & Hr).
    pose proof (plot_results_silent w a (Some (transpose_n 5 [])) None (Some [])) as Hsil.
    apply always_filter_nil in Hsil. rewrite Hr in Hsil. cbn [effects snd] in Hsil.
    exists e, ([Call_cwt_synthesis (transpose_n 5 []) (mean_f0 a);
                Savetxt Reconstruction path []] ++ l).
    split; [rewrite Hr; reflexivity |].
    rewrite written_app. unfold written at 2. rewrite Hsil. reflexivity.
  - intros Hret. unfold plot_results, pylab. rewrite Hm, !Hret. cbn.
    rewrite !Hret. reflexivity.
Qed.

Lemma plot_of_empty_reconstruction_fails_after_write_witness :
  pylab_returns (demo_world_with [])
  /\ run demo_tk (demo_world_with []) (demo_args 1 true "in/empty.cwt")
     = (Raise (ValueError "max() arg is an empty sequence"),
        [Call_cwt_synthesis (transpose_n 5 []) 100%Q;
         Savetxt Reconstruction "out" [];
         Pylab Figure;
         Pylab (Title "CWT decomposition to 5 scales and reconstructed signal");
         Pylab (Plot [])]).
Proof.
  assert (Hp : pylab_returns (demo_world_with [])) by (intros cmd; reflexivity).
  split; [exact Hp |].
  apply (proj2 (plot_of_empty_reconstruction_fails_after_write demo_tk (demo_world_with [])
                  (demo_args 1 true "in/empty.cwt") [("wavelet", wavelet_section)] [] "out"
                  eq_refl eq_refl eq_refl eq_refl eq_refl eq_refl eq_refl eq_refl)).
  exact Hp.
Defined.
